(** * express-jobly: the dynamic SQL builders

    A shallow embedding of [helpers/sql.js] ([sqlForPartialUpdate]),
    [models/job.js] ([Job.create], [Job.findAll], [Job.get], [Job.update],
    [Job.remove]), of the handlers of [routes/jobs.js] and of the list
    handler of [routes/companies.js], with the properties of their
    clause/parameter discipline. *)

From stdpp Require Import base list strings pretty sorting.

Open Scope string_scope.
Open Scope list_scope.

(** ** JavaScript values

    The values that flow through the builders: [undefined], [null],
    booleans, numbers, strings, plain objects and the built-in functions a
    plain object inherits.  Numbers are the integers (printed in decimal, as
    JavaScript prints integers below 1e21) together with [NaN]; a plain
    object is the sequence of its own enumerable properties in the order
    in which they were created. *)

#[warnings="-register-all"]
Inductive js_value : Type :=
| VUndefined
| VNull
| VBool (b : bool)
| VNum (z : Z)
| VNaN
| VStr (s : string)
| VObj (props : list (string * js_value))
| VFun (name : string).

Abbreviation obj := (list (string * js_value)).

(** The double-quote character, as a one-character string. *)
Definition dquote : string := String (Ascii.ascii_of_nat 34) EmptyString.

(** [ToBoolean]: the falsy values are [undefined], [null], [false], [0],
    [NaN] and the empty string. *)
Definition ToBoolean (v : js_value) : bool :=
  match v with
  | VUndefined | VNull | VNaN => false
  | VBool b => b
  | VNum z => negb (Z.eqb z 0)
  | VStr s => negb (String.eqb s EmptyString)
  | VObj _ => true
  | VFun _ => true
  end.

(** [ToString], as applied by a template literal [`${v}`]. *)
Definition ToString (v : js_value) : string :=
  match v with
  | VUndefined => "undefined"
  | VNull => "null"
  | VBool true => "true"
  | VBool false => "false"
  | VNum z => pretty z
  | VNaN => "NaN"
  | VStr s => s
  | VObj _ => "[object Object]"
  | VFun name => "function " +:+ name +:+ "() { [native code] }"
  end.

(** [a || b] *)
Definition js_or (a b : js_value) : js_value :=
  if ToBoolean a then a else b.

(** [v !== undefined] *)
Definition is_defined (v : js_value) : bool :=
  match v with VUndefined => false | _ => true end.

(** [v === true] *)
Definition is_true (v : js_value) : bool :=
  match v with VBool true => true | _ => false end.

(** ** Plain objects *)

(** What a plain object inherits from [Object.prototype]: its built-in
    methods, [constructor] (the function [Object]) and [__proto__] (the
    prototype itself, an object without enumerable property); any other
    name is [undefined]. *)
Definition Object_prototype (k : string) : js_value :=
  if String.eqb k "constructor" then VFun "Object"
  else if String.eqb k "__proto__" then VObj []
  else if existsb (String.eqb k)
            ["__defineGetter__"; "__defineSetter__"; "hasOwnProperty";
             "__lookupGetter__"; "__lookupSetter__"; "isPrototypeOf";
             "propertyIsEnumerable"; "toString"; "valueOf"; "toLocaleString"]
       then VFun k
  else VUndefined.

(** [o[k]]: the value of own property [k], or else what the object
    inherits under that name. *)
Fixpoint get_prop (o : obj) (k : string) : js_value :=
  match o with
  | [] => Object_prototype k
  | (k', v) :: o' => if String.eqb k' k then v else get_prop o' k
  end.

(** [o[k] = v]: an existing property keeps its place, a new one goes last. *)
Fixpoint set_prop (o : obj) (k : string) (v : js_value) : obj :=
  match o with
  | [] => [(k, v)]
  | (k', v') :: o' =>
      if String.eqb k' k then (k', v) :: o' else (k', v') :: set_prop o' k v
  end.

(** [delete o[k]] *)
Fixpoint delete_prop (o : obj) (k : string) : obj :=
  match o with
  | [] => []
  | (k', v') :: o' =>
      if String.eqb k' k then delete_prop o' k else (k', v') :: delete_prop o' k
  end.

(** Strings of decimal digits. *)
Fixpoint digits_value (acc : N) (s : string) : option N :=
  match s with
  | EmptyString => Some acc
  | String c s' =>
      let n := Ascii.N_of_ascii c in
      if (48 <=? n)%N && (n <=? 57)%N
      then digits_value (acc * 10 + (n - 48))%N s'
      else None
  end.

(** An array index: the canonical decimal form of an integer below
    [2^32 - 1]. *)
Definition array_index (k : string) : option N :=
  match digits_value 0 k with
  | Some n =>
      if String.eqb (pretty n) k && (n <=? 4294967294)%N then Some n else None
  | None => None
  end.

(** The order in which own properties are enumerated: array indices first,
    in ascending order, then the other keys in the order of their creation. *)
Section Enumerate.
Context {A : Type}.
Variable key : A -> string.

Fixpoint insert_index (n : N) (x : A) (l : list (N * A)) : list (N * A) :=
  match l with
  | [] => [(n, x)]
  | (m, y) :: l' =>
      if (n <=? m)%N then (n, x) :: (m, y) :: l'
      else (m, y) :: insert_index n x l'
  end.

Fixpoint index_part (l : list A) : list (N * A) :=
  match l with
  | [] => []
  | x :: l' =>
      match array_index (key x) with
      | Some n => insert_index n x (index_part l')
      | None => index_part l'
      end
  end.

Fixpoint named_part (l : list A) : list A :=
  match l with
  | [] => []
  | x :: l' =>
      match array_index (key x) with
      | Some _ => named_part l'
      | None => x :: named_part l'
      end
  end.

Definition enumerate (l : list A) : list A := (index_part l).*2 ++ named_part l.
End Enumerate.

Definition Object_entries (o : obj) : obj := enumerate fst o.
Definition Object_keys (o : obj) : list string := (Object_entries o).*1.
Definition Object_values (o : obj) : list js_value := (Object_entries o).*2.

(** ** Errors ([expressError.js]) *)

Inductive message : Type :=
| Text (s : string)
| Stacks (errs : list string).

Inductive error : Type :=
| BadRequestError (m : message)
| NotFoundError (m : message).

(** ** [helpers/sql.js] *)

Record update_sql : Type := { setCols : string; values : list js_value }.

(** One element of [cols]: the column [jsToSql[colName] || colName] between
    double quotes, then [=$] and [idx + 1]. *)
Definition set_fragment (jsToSql : obj) (idx : nat) (colName : string) : string :=
  dquote +:+ ToString (js_or (get_prop jsToSql colName) (VStr colName))
         +:+ dquote +:+ "=$" +:+ pretty (idx + 1).

Definition sqlForPartialUpdate (dataToUpdate jsToSql : obj) : error + update_sql :=
  let keys := Object_keys dataToUpdate in
  if Nat.eqb (length keys) 0 then inl (BadRequestError (Text "No data"))
  else
    let cols := imap (set_fragment jsToSql) keys in
    inr {| setCols := String.concat ", " cols;
           values := Object_values dataToUpdate |}.

(** ** The database collaborator ([db.js])

    A model method is a program that may issue statements to the database
    and continue with the rows it gets back ([(await db.query(sql, params)).rows]),
    return, or throw. *)

Inductive db_prog (A : Type) : Type :=
| Return (a : A)
| Throw (e : error)
| Query (sql : string) (params : list js_value) (k : list obj -> db_prog A).

Arguments Return {A} a.
Arguments Throw {A} e.
Arguments Query {A} sql params k.

(** A statement as handed to [db.query]. *)
Definition statement : Type := string * list js_value.

Record outcome (DB A : Type) : Type :=
  { result : error + A; issued : list statement; final_db : DB }.

Arguments result {DB A} o.
Arguments issued {DB A} o.
Arguments final_db {DB A} o.

(** The run of a method against a database that answers every statement;
    what the properties stated with it say holds for the statements that
    are answered.  A database that may refuse is modelled further down. *)
Section Run.
Context {DB A : Type}.
(** The database engine: the rows a statement yields and the state it leaves. *)
Variable exec : DB -> string -> list js_value -> list obj * DB.

Fixpoint run_from (log : list statement) (p : db_prog A) (db : DB) : outcome DB A :=
  match p with
  | Return a => {| result := inr a; issued := log; final_db := db |}
  | Throw e => {| result := inl e; issued := log; final_db := db |}
  | Query sql params k =>
      let '(rows, db') := exec db sql params in
      run_from (log ++ [(sql, params)]) (k rows) db'
  end.

Definition run (p : db_prog A) (db : DB) : outcome DB A := run_from [] p db.
End Run.

(** ** [models/job.js] *)

Module Job.

Definition create_sql : string :=
  "INSERT INTO jobs (title,
                             salary,
                             equity,
                             company_handle)
           VALUES ($1, $2, $3, $4)
           RETURNING id, title, salary, equity, company_handle AS "
  +:+ dquote
  +:+ "companyHandle"
  +:+ dquote.

Definition create (data : obj) : db_prog js_value :=
  Query create_sql
    [get_prop data "title"; get_prop data "salary";
     get_prop data "equity"; get_prop data "companyHandle"]
    (fun rows => Return (match rows with [] => VUndefined | job :: _ => VObj job end)).

Definition findAll_base : string :=
  "SELECT j.id,
                        j.title,
                        j.salary,
                        j.equity,
                        j.company_handle AS "
  +:+ dquote
  +:+ "companyHandle"
  +:+ dquote
  +:+ ",
                        c.name AS "
  +:+ dquote
  +:+ "companyName"
  +:+ dquote
  +:+ "
                 FROM jobs j 
                   LEFT JOIN companies AS c ON c.handle = j.company_handle".

(** The two arrays after the three [if]s: [(queryWhereClauses, queryParameters)]. *)
Definition findAll_filters (minSalary hasEquity title : js_value)
  : list string * list js_value :=
  let queryWhereClauses : list string := [] in
  let queryParameters : list js_value := [] in
  let '(queryWhereClauses, queryParameters) :=
    if is_defined minSalary then
      let queryParameters := queryParameters ++ [minSalary] in
      (queryWhereClauses ++ ["salary >= $" +:+ pretty (length queryParameters)],
       queryParameters)
    else (queryWhereClauses, queryParameters) in
  let queryWhereClauses :=
    if is_true hasEquity then queryWhereClauses ++ ["equity > 0"]
    else queryWhereClauses in
  let '(queryWhereClauses, queryParameters) :=
    if is_defined title then
      let queryParameters :=
        queryParameters ++ [VStr ("%" +:+ ToString title +:+ "%")] in
      (queryWhereClauses ++ ["title ILIKE $" +:+ pretty (length queryParameters)],
       queryParameters)
    else (queryWhereClauses, queryParameters) in
  (queryWhereClauses, queryParameters).

(** The arguments of the [db.query] call of [findAll]. *)
Definition findAll_statement (minSalary hasEquity title : js_value) : statement :=
  let query := findAll_base in
  let '(queryWhereClauses, queryParameters) :=
    findAll_filters minSalary hasEquity title in
  let query :=
    if Nat.ltb 0 (length queryWhereClauses)
    then query +:+ " WHERE " +:+ String.concat " AND " queryWhereClauses
    else query in
  let query := query +:+ " ORDER BY title" in
  (query, queryParameters).

(** [findAll({ minSalary, hasEquity, title } = {})]: [None] is a call without
    argument, for which the default [{}] is destructured. *)
Definition findAll (arg : option obj) : db_prog (list obj) :=
  let criteria := match arg with Some o => o | None => [] end in
  let minSalary := get_prop criteria "minSalary" in
  let hasEquity := get_prop criteria "hasEquity" in
  let title := get_prop criteria "title" in
  let '(query, queryParameters) := findAll_statement minSalary hasEquity title in
  Query query queryParameters (fun jobResults => Return jobResults).

Definition get_job_sql : string :=
  "SELECT id,
                  title,
                  salary,
                  equity,
                  company_handle AS "
  +:+ dquote
  +:+ "companyHandle"
  +:+ dquote
  +:+ "
           FROM jobs
           WHERE id = $1".

Definition get_company_sql : string :=
  "SELECT handle,
                  name,
                  description,
                  num_employees AS "
  +:+ dquote
  +:+ "numEmployees"
  +:+ dquote
  +:+ ",
                  logo_url AS "
  +:+ dquote
  +:+ "logoUrl"
  +:+ dquote
  +:+ "
           FROM companies
           WHERE handle = $1".

Definition get (id : js_value) : db_prog obj :=
  Query get_job_sql [id] (fun jobResults =>
    match jobResults with
    | [] => Throw (NotFoundError (Text ("No job: " +:+ ToString id)))
    | job :: _ =>
        Query get_company_sql [get_prop job "companyHandle"] (fun companyResults =>
          let job := delete_prop job "companyHandle" in
          let job :=
            set_prop job "company"
              (match companyResults with [] => VUndefined | c :: _ => VObj c end) in
          Return job)
    end).

Definition update_sql_text (setCols jobIdIndex : string) : string :=
  "UPDATE jobs 
                      SET "
  +:+ setCols
  +:+ " 
                      WHERE id = "
  +:+ jobIdIndex
  +:+ " 
                      RETURNING id, 
                                title, 
                                salary, 
                                equity,
                                company_handle AS "
  +:+ dquote
  +:+ "companyHandle"
  +:+ dquote.

Definition update (id : js_value) (data : obj) : db_prog obj :=
  match sqlForPartialUpdate data [] with
  | inl e => Throw e
  | inr r =>
      let jobIdIndex := "$" +:+ pretty (length (values r) + 1) in
      let sqlQuery := update_sql_text (setCols r) jobIdIndex in
      Query sqlQuery (values r ++ [id]) (fun rows =>
        match rows with
        | [] => Throw (NotFoundError (Text ("No job: " +:+ ToString id)))
        | job :: _ => Return job
        end)
  end.

Definition remove_sql : string :=
  "DELETE
           FROM jobs
           WHERE id = $1
           RETURNING id".

Definition remove (id : js_value) : db_prog unit :=
  Query remove_sql [id] (fun rows =>
    match rows with
    | [] => Throw (NotFoundError (Text ("No job: " +:+ ToString id)))
    | _ :: _ => Return tt
    end).

End Job.

(** ** [routes/companies.js]: the list handler, [GET /] *)

(** What a handler does with the request: answer with [res.json], hand an
    error to [next], or call the model and go on with what it returns or
    throws. *)
Inductive response : Type :=
| Json (key : string) (rows : list obj)
| Next (err : error).

Inductive route_prog : Type :=
| Respond (r : response)
| CallFindAll (q : obj) (k : error + list obj -> route_prog).

Section Coercion.
(** The numeric value of a string literal, a built-in of the language. *)
Variable StringToNumber : string -> js_value.

(** Unary plus: [+v]. *)
Definition ToNumber (v : js_value) : js_value :=
  match v with
  | VUndefined => VNaN
  | VNull => VNum 0
  | VBool true => VNum 1
  | VBool false => VNum 0
  | VNum z => VNum z
  | VNaN => VNaN
  | VStr s => StringToNumber s
  | VObj _ => VNaN
  | VFun _ => VNaN
  end.
End Coercion.

Section CompaniesRoute.
Variable StringToNumber : string -> js_value.
(** [jsonschema.validate(q, companySearchSchema).errors.map(e => e.stack)];
    the result is [valid] when there are no errors. *)
Variable validate : obj -> list string.

(** The two [if]s that rewrite [q.minEmployees] and [q.maxEmployees]. *)
Definition coerce_bounds (query : obj) : obj :=
  let q := query in
  let q :=
    if is_defined (get_prop q "minEmployees")
    then set_prop q "minEmployees" (ToNumber StringToNumber (get_prop q "minEmployees"))
    else q in
  let q :=
    if is_defined (get_prop q "maxEmployees")
    then set_prop q "maxEmployees" (ToNumber StringToNumber (get_prop q "maxEmployees"))
    else q in
  q.

Definition companies_respond (r : error + list obj) : route_prog :=
  match r with
  | inr companies => Respond (Json "companies" companies)
  | inl err => Respond (Next err)
  end.

Definition companies_list (query : obj) : route_prog :=
  let q := coerce_bounds query in
  let errs := validate q in
  if negb (Nat.eqb (length errs) 0)
  then Respond (Next (BadRequestError (Stacks errs)))
  else CallFindAll q companies_respond.
End CompaniesRoute.

(** [minEmployees > maxEmployees] on the query the model receives. *)
Definition inverted_range (q : obj) : bool :=
  match get_prop q "minEmployees", get_prop q "maxEmployees" with
  | VNum lo, VNum hi => Z.ltb hi lo
  | _, _ => false
  end.

(** A schema that judges every property on its own, as the [properties] and
    [additionalProperties] keywords of JSON Schema do. *)
Definition property_wise (validate : obj -> list string) : Prop :=
  exists check : string -> js_value -> list string,
    forall q : obj, validate q = flat_map (fun kv => check kv.1 kv.2) q.

(** An instance of [StringToNumber] that is exact on strings of decimal digits
    and on the empty string; other numeric literals (signs, blanks, fractions,
    exponents, radix prefixes) are outside it and read as [NaN]. *)
Definition decimal_literal (s : string) : js_value :=
  match digits_value 0 s with
  | Some n => VNum (Z.of_N n)
  | None => VNaN
  end.

(** Modelled from the spec: [schemas/companySearch.json] is not among the
    sources.  The criteria are [minEmployees], [maxEmployees] (numeric) and
    [nameLike] (text); a criterion that is not recognised is rejected. *)
Definition companySearch_check (k : string) (v : js_value) : list string :=
  if String.eqb k "minEmployees" || String.eqb k "maxEmployees" then
    match v with
    | VNum _ => []
    | _ => ["instance." +:+ k +:+ " is not of a type(s) integer"]
    end
  else if String.eqb k "nameLike" then
    match v with
    | VStr _ => []
    | _ => ["instance." +:+ k +:+ " is not of a type(s) string"]
    end
  else ["instance is not allowed to have the additional property " +:+ k].

Definition companySearch_validate (q : obj) : list string :=
  flat_map (fun kv => companySearch_check kv.1 kv.2) q.

(** A database with one job and one company, for the examples. *)
Definition demo_job : obj :=
  [("id", VNum 1); ("title", VStr "Engineer"); ("salary", VNum 100);
   ("equity", VStr "0.1"); ("companyHandle", VStr "c1")].

Definition demo_company : obj :=
  [("handle", VStr "c1"); ("name", VStr "C1"); ("description", VStr "Desc1");
   ("numEmployees", VNum 1); ("logoUrl", VStr "http://c1.img")].

Definition demo_exec (db : unit) (sql : string) (params : list js_value)
  : list obj * unit :=
  if String.eqb sql Job.get_job_sql then
    match params with
    | [VNum 1] => ([demo_job], db)
    | _ => ([], db)
    end
  else if String.eqb sql Job.get_company_sql then
    match params with
    | [VStr "c1"] => ([demo_company], db)
    | _ => ([], db)
    end
  else ([], db).

(** ** The [SET] clause as the specification words it

    In the words of the specification: the column of a key is its
    entry in the field map, or the key itself; the clause is the comma-joined
    sequence of quoted columns, each followed by [=$i], [i] counting from 1. *)

Definition column_of (fieldMap : obj) (key : string) : string :=
  ToString (js_or (get_prop fieldMap key) (VStr key)).

Definition columns_of (fieldMap payload : obj) : list string :=
  column_of fieldMap <$> payload.*1.

Definition numbered_fragment (i : nat) (column : string) : string :=
  dquote +:+ column +:+ dquote +:+ "=$" +:+ pretty (i + 1).

Definition set_clause (columns : list string) : string :=
  String.concat ", " (imap numbered_fragment columns).

(** Exchange the entries at positions [i] and [j]. *)
Definition swap_entries {A : Type} (i j : nat) (l : list A) : list A :=
  match l !! i, l !! j with
  | Some x, Some y => <[j := x]> (<[i := y]> l)
  | _, _ => l
  end.

(** ** [routes/jobs.js]

    The five handler functions, after the authorisation middleware.  A
    handler ends by answering ([res.status(s).json(body)], status 200 when
    none is set) or by handing the error it caught to [next]. *)

(** The three schemas the handlers validate against; the files are
    [schemas/jobNew.json], [schemas/jobUpdate.json], [schemas/jobSearch.json]. *)
Inductive schema : Type :=
| jobNewSchema
| jobUpdateSchema
| jobSearchSchema.

(** A one-member JSON body: [{ key: v }] or [{ key: [row, ...] }]. *)
Inductive body : Type :=
| Member (key : string) (v : js_value)
| Members (key : string) (rows : list obj).

Inductive reply : Type :=
| Reply (status : nat) (b : body)
| PassNext (err : error).

(** [try { const a = await p; return ok(a) } catch (err) { return next(err) }] *)
Fixpoint respond_with {A : Type} (p : db_prog A) (ok : A -> reply) : db_prog reply :=
  match p with
  | Return a => Return (ok a)
  | Throw err => Return (PassNext err)
  | Query sql params k => Query sql params (fun rows => respond_with (k rows) ok)
  end.

(** [v === "true"] *)
Definition is_string_true (v : js_value) : bool :=
  match v with
  | VStr s => String.eqb s "true"
  | _ => false
  end.

Section JobsRoutes.
Variable StringToNumber : string -> js_value.
(** [jsonschema.validate(instance, schema).errors.map(e => e.stack)] *)
Variable jsonschema_validate : obj -> schema -> list string.

(** [POST /] *)
Definition jobs_post (req_body : obj) : db_prog reply :=
  respond_with
    (let errs := jsonschema_validate req_body jobNewSchema in
     if negb (Nat.eqb (length errs) 0)
     then Throw (BadRequestError (Stacks errs))
     else Job.create req_body)
    (fun job => Reply 201 (Member "job" job)).

(** The two assignments to [q] at the head of [GET /]. *)
Definition jobs_coerce (query : obj) : obj :=
  let q := query in
  let q :=
    if is_defined (get_prop q "minSalary")
    then set_prop q "minSalary" (ToNumber StringToNumber (get_prop q "minSalary"))
    else q in
  let q := set_prop q "hasEquity" (VBool (is_string_true (get_prop q "hasEquity"))) in
  q.

(** [GET /] *)
Definition jobs_list (query : obj) : db_prog reply :=
  let q := jobs_coerce query in
  respond_with
    (let errs := jsonschema_validate q jobSearchSchema in
     if negb (Nat.eqb (length errs) 0)
     then Throw (BadRequestError (Stacks errs))
     else Job.findAll (Some q))
    (fun jobs => Reply 200 (Members "jobs" jobs)).

(** [GET /:id] *)
Definition jobs_get (id : js_value) : db_prog reply :=
  respond_with (Job.get id) (fun job => Reply 200 (Member "job" (VObj job))).

(** [PATCH /:id] *)
Definition jobs_patch (id : js_value) (req_body : obj) : db_prog reply :=
  respond_with
    (let errs := jsonschema_validate req_body jobUpdateSchema in
     if negb (Nat.eqb (length errs) 0)
     then Throw (BadRequestError (Stacks errs))
     else Job.update id req_body)
    (fun job => Reply 200 (Member "job" (VObj job))).

(** [DELETE /:id] *)
Definition jobs_delete (id : js_value) : db_prog reply :=
  respond_with (Job.remove id)
    (fun _ => Reply 200 (Member "deleted" (ToNumber StringToNumber id))).
End JobsRoutes.

(** A validator for the examples: [jobUpdate] admits [title], [salary] and
    [equity] and nothing else, [jobSearch] admits [minSalary], [hasEquity] and
    [title], [jobNew] admits everything. *)
Definition demo_allowed (s : schema) (k : string) : bool :=
  match s with
  | jobNewSchema => true
  | jobUpdateSchema =>
      String.eqb k "title" || String.eqb k "salary" || String.eqb k "equity"
  | jobSearchSchema =>
      String.eqb k "minSalary" || String.eqb k "hasEquity" || String.eqb k "title"
  end.

Definition demo_validate (instance : obj) (s : schema) : list string :=
  flat_map
    (fun kv =>
       if demo_allowed s kv.1 then []
       else ["instance is not allowed to have the additional property " +:+ kv.1])
    instance.

(** A database for the examples that answers every statement with one row. *)
Definition one_row_exec (db : nat) (sql : string) (params : list js_value)
  : list obj * nat :=
  ([demo_job], S db).

(** ** A database that may refuse a statement

    [db.query] rejects when the engine refuses the statement (a violated
    constraint, a malformed value); no model method catches, so the
    rejection leaves the method as it came. *)

Inductive failure (E : Type) : Type :=
| Thrown (e : error)
| Rejected (e : E).

Arguments Thrown {E} e.
Arguments Rejected {E} e.

Record attempt (E DB A : Type) : Type :=
  { ended : failure E + A; sent : list statement; left_db : DB }.

Arguments ended {E DB A} a.
Arguments sent {E DB A} a.
Arguments left_db {E DB A} a.

Section Attempt.
Context {E DB A : Type}.
Variable engine : DB -> string -> list js_value -> (E + list obj) * DB.

Fixpoint attempt_from (log : list statement) (p : db_prog A) (db : DB)
  : attempt E DB A :=
  match p with
  | Return a => {| ended := inr a; sent := log; left_db := db |}
  | Throw e => {| ended := inl (Thrown e); sent := log; left_db := db |}
  | Query sql params k =>
      match engine db sql params with
      | (inr rows, db') => attempt_from (log ++ [(sql, params)]) (k rows) db'
      | (inl e, db') =>
          {| ended := inl (Rejected e);
             sent := log ++ [(sql, params)];
             left_db := db' |}
      end
  end.

Definition attempt_run (p : db_prog A) (db : DB) : attempt E DB A :=
  attempt_from [] p db.
End Attempt.

(** ** The company filter

    Modelled from the spec: [models/company.js] is not among the sources.
    The filter builder of the specification for the company criteria, in
    its order: the lower bound pushes its value and emits the quoted column
    with [>=] and the next index, the upper bound likewise with [<=], the
    name pushes the wildcard-wrapped value and emits a case-insensitive
    match; the clauses are joined with [ AND ], or the fragment is empty.
    The builder compares no bounds. *)
Definition Company_findAll_where (criteria : obj) : string * list js_value :=
  let minEmployees := get_prop criteria "minEmployees" in
  let maxEmployees := get_prop criteria "maxEmployees" in
  let nameLike := get_prop criteria "nameLike" in
  let clauses : list string := [] in
  let values : list js_value := [] in
  let '(clauses, values) :=
    if is_defined minEmployees then
      let values := values ++ [minEmployees] in
      (clauses ++ [dquote +:+ "num_employees" +:+ dquote +:+ " >= $"
                     +:+ pretty (length values)], values)
    else (clauses, values) in
  let '(clauses, values) :=
    if is_defined maxEmployees then
      let values := values ++ [maxEmployees] in
      (clauses ++ [dquote +:+ "num_employees" +:+ dquote +:+ " <= $"
                     +:+ pretty (length values)], values)
    else (clauses, values) in
  let '(clauses, values) :=
    if is_defined nameLike then
      let values := values ++ [VStr ("%" +:+ ToString nameLike +:+ "%")] in
      (clauses ++ [dquote +:+ "name" +:+ dquote +:+ " ILIKE $"
                     +:+ pretty (length values)], values)
    else (clauses, values) in
  (String.concat " AND " clauses, values).

(** Modelled from the spec: [Company.findAll] hands the filter to the
    database and returns the rows it answers; [answer] is that database. *)
Definition Company_findAll (answer : string -> list js_value -> list obj)
    (criteria : obj) : error + list obj :=
  let '(whereSql, values) := Company_findAll_where criteria in
  inr (answer whereSql values).

(** What the handler answers, given what [Company.findAll] does. *)
Fixpoint route_run (findAll : obj -> error + list obj) (p : route_prog)
  : response :=
  match p with
  | Respond r => r
  | CallFindAll q k => route_run findAll (k (findAll q))
  end.

(** An engine for the examples that refuses a statement with a missing
    parameter ([undefined] or [null]) and answers every other with one row. *)
Definition strict_engine (db : nat) (sql : string) (params : list js_value)
  : (string + list obj) * nat :=
  if existsb
       (fun v => match v with VUndefined | VNull => true | _ => false end)
       params
  then (inl "null value violates not-null constraint", db)
  else (inr [demo_job], S db).

(** * Properties *)

(** The two cases of [helpers/sql.test.js]. *)
Example update_1_field :
  sqlForPartialUpdate
    [("firstName", VStr "FirstnameTest")]
    [("firstName", VStr "first_name"); ("age", VStr "age")]
  = inr {| setCols := dquote +:+ "first_name" +:+ dquote +:+ "=$1";
           values := [VStr "FirstnameTest"] |}.
Proof. reflexivity. Qed.

Example update_2_fields :
  sqlForPartialUpdate
    [("firstName", VStr "FirstnameTest"); ("age", VNum 50)]
    [("firstName", VStr "first_name"); ("age", VStr "age")]
  = inr {| setCols := dquote +:+ "first_name" +:+ dquote +:+ "=$1, "
                      +:+ dquote +:+ "age" +:+ dquote +:+ "=$2";
           values := [VStr "FirstnameTest"; VNum 50] |}.
Proof. reflexivity. Qed.

(** A field without entry in the map keeps its own name; an empty payload
    is refused. *)
Example update_unmapped_field :
  sqlForPartialUpdate [("zzz", VNum 1)] []
  = inr {| setCols := dquote +:+ "zzz" +:+ dquote +:+ "=$1";
           values := [VNum 1] |}.
Proof. reflexivity. Qed.

Example update_no_data :
  sqlForPartialUpdate [] [("firstName", VStr "first_name")]
  = inl (BadRequestError (Text "No data")).
Proof. reflexivity. Qed.

(** ** The order of [Object.keys] *)

Section EnumerateFacts.
Context {A : Type}.
Variable key : A -> string.

Lemma insert_index_perm (n : N) (x : A) (l : list (N * A)) :
  insert_index n x l ≡ₚ (n, x) :: l.
Proof.
  induction l as [|[m y] l IH]; cbn; [done|].
  destruct (n <=? m)%N; [done|]. rewrite IH. apply Permutation_swap.
Qed.

Lemma enumerate_perm (l : list A) : enumerate key l ≡ₚ l.
Proof.
  unfold enumerate. induction l as [|x l IH]; cbn; [done|].
  destruct (array_index (key x)) as [n|].
  - rewrite insert_index_perm. cbn. by rewrite IH.
  - rewrite <- Permutation_middle. by rewrite IH.
Qed.

Lemma insert_index_sorted (n : N) (x : A) (l : list (N * A)) :
  Sorted N.le l.*1 -> Sorted N.le (insert_index n x l).*1.
Proof.
  induction l as [|[m y] l IH]; cbn; intros Hs.
  - by repeat constructor.
  - destruct (N.leb_spec n m) as [Hle|Hlt]; cbn.
    + constructor; [done|]. by constructor.
    + apply Sorted_inv in Hs as [Hs Hhd]. constructor; [by apply IH|].
      destruct l as [|[m' y'] l]; cbn.
      * constructor. lia.
      * destruct (n <=? m')%N; cbn; constructor; [lia|].
        by apply HdRel_inv in Hhd.
Qed.

Lemma index_part_sorted (l : list A) : Sorted N.le (index_part key l).*1.
Proof.
  induction l as [|x l IH]; cbn; [constructor|].
  destruct (array_index (key x)); [by apply insert_index_sorted|done].
Qed.

Lemma index_part_perm (l : list A) :
  (index_part key l).*2 ≡ₚ filter (fun x => is_Some (array_index (key x))) l.
Proof.
  induction l as [|x l IH]; [done|]. cbn [index_part]. rewrite filter_cons.
  destruct (array_index (key x)) as [n|] eqn:Hx.
  - rewrite decide_True by by eexists.
    rewrite insert_index_perm. cbn. by rewrite IH.
  - rewrite decide_False by by intros [? ?]. done.
Qed.

Lemma index_part_indices (l : list A) :
  Forall (fun nx => array_index (key nx.2) = Some nx.1) (index_part key l).
Proof.
  induction l as [|x l IH]; cbn; [constructor|].
  destruct (array_index (key x)) as [n|] eqn:Hx; [|done].
  rewrite insert_index_perm. by constructor.
Qed.

Lemma named_part_filter (l : list A) :
  named_part key l = filter (fun x => array_index (key x) = None) l.
Proof.
  induction l as [|x l IH]; [done|]. cbn [named_part]. rewrite filter_cons.
  destruct (array_index (key x)) as [n|] eqn:Hx.
  - by rewrite decide_False by done.
  - by rewrite decide_True, IH by done.
Qed.

Lemma index_part_named (l : list A) :
  Forall (fun x => array_index (key x) = None) l -> index_part key l = [].
Proof.
  induction 1 as [|x l Hx _ IH]; cbn; [done|]. by rewrite Hx.
Qed.

Lemma named_part_named (l : list A) :
  Forall (fun x => array_index (key x) = None) l -> named_part key l = l.
Proof.
  induction 1 as [|x l Hx _ IH]; cbn; [done|]. by rewrite Hx, IH.
Qed.

Lemma enumerate_named (l : list A) :
  Forall (fun x => array_index (key x) = None) l -> enumerate key l = l.
Proof.
  intros Hl. unfold enumerate.
  by rewrite index_part_named, named_part_named.
Qed.

Lemma enumerate_snoc_named (l : list A) (x : A) :
  array_index (key x) = None -> enumerate key (l ++ [x]) = enumerate key l ++ [x].
Proof.
  intros Hx. unfold enumerate.
  assert (Hi : index_part key (l ++ [x]) = index_part key l).
  { induction l as [|y l IH]; cbn; [by rewrite Hx|]. by rewrite IH. }
  assert (Hn : named_part key (l ++ [x]) = named_part key l ++ [x]).
  { clear Hi. induction l as [|y l IH]; cbn; [by rewrite Hx|].
    rewrite IH. by destruct (array_index (key y)). }
  by rewrite Hi, Hn, app_assoc.
Qed.
End EnumerateFacts.

Lemma enumerate_fmap {A B : Type} (keyA : A -> string) (keyB : B -> string)
    (f : A -> B) (l : list A) :
  (forall x, keyB (f x) = keyA x) ->
  enumerate keyB (f <$> l) = f <$> enumerate keyA l.
Proof.
  intros Hkey. unfold enumerate.
  assert (Hins : forall n x (t : list (N * A)),
            insert_index n (f x) (prod_map id f <$> t)
            = prod_map id f <$> insert_index n x t).
  { intros n x t. induction t as [|[m y] t IH]; cbn; [done|].
    destruct (n <=? m)%N; cbn; [done|]. by rewrite IH. }
  assert (Hi : index_part keyB (f <$> l) = prod_map id f <$> index_part keyA l).
  { induction l as [|x l IH]; cbn; [done|]. rewrite Hkey, IH.
    destruct (array_index (keyA x)); [apply Hins|done]. }
  assert (Hn : named_part keyB (f <$> l) = f <$> named_part keyA l).
  { clear Hi. induction l as [|x l IH]; cbn; [done|]. rewrite Hkey, IH.
    by destruct (array_index (keyA x)). }
  rewrite Hi, Hn, fmap_app. f_equal.
  rewrite <- !list_fmap_compose. by apply list_fmap_ext; intros i [n x] _.
Qed.

Lemma Object_keys_enumerate (o : obj) : Object_keys o = enumerate id o.*1.
Proof.
  unfold Object_keys, Object_entries. symmetry. by apply enumerate_fmap.
Qed.

Lemma Object_entries_perm (o : obj) : Object_entries o ≡ₚ o.
Proof. apply enumerate_perm. Qed.

Lemma length_Object_keys (o : obj) : length (Object_keys o) = length o.
Proof.
  unfold Object_keys. by rewrite length_fmap, (Object_entries_perm o).
Qed.

Lemma length_Object_values (o : obj) : length (Object_values o) = length o.
Proof.
  unfold Object_values. by rewrite length_fmap, (Object_entries_perm o).
Qed.

Lemma elem_of_Object_keys (o : obj) (k : string) :
  k ∈ Object_keys o <-> k ∈ o.*1.
Proof. unfold Object_keys. by rewrite (Object_entries_perm o). Qed.

Lemma Object_keys_same (o1 o2 : obj) :
  o1.*1 = o2.*1 -> Object_keys o1 = Object_keys o2.
Proof. intros Heq. by rewrite !Object_keys_enumerate, Heq. Qed.

(** ** [sqlForPartialUpdate] *)

Lemma set_fragment_numbered (jsToSql : obj) (idx : nat) (colName : string) :
  set_fragment jsToSql idx colName
  = numbered_fragment idx (column_of jsToSql colName).
Proof. reflexivity. Qed.

Lemma imap_set_fragment (jsToSql : obj) (keys : list string) :
  imap (set_fragment jsToSql) keys
  = imap numbered_fragment (column_of jsToSql <$> keys).
Proof.
  rewrite imap_fmap. apply imap_ext. intros i x _.
  apply set_fragment_numbered.
Qed.

Lemma sqlForPartialUpdate_nonempty (dataToUpdate jsToSql : obj) :
  dataToUpdate <> [] ->
  sqlForPartialUpdate dataToUpdate jsToSql
  = inr {| setCols :=
             set_clause (column_of jsToSql <$> Object_keys dataToUpdate);
           values := Object_values dataToUpdate |}.
Proof.
  intros Hne. unfold sqlForPartialUpdate. rewrite length_Object_keys.
  destruct dataToUpdate as [|kv rest]; [congruence|].
  cbn [length Nat.eqb].
  unfold set_clause. by rewrite imap_set_fragment.
Qed.

Lemma sqlForPartialUpdate_empty (jsToSql : obj) :
  sqlForPartialUpdate [] jsToSql = inl (BadRequestError (Text "No data")).
Proof. reflexivity. Qed.

Lemma fmap_swap_entries {A B : Type} (f : A -> B) (i j : nat) (l : list A) :
  f <$> swap_entries i j l = swap_entries i j (f <$> l).
Proof.
  unfold swap_entries. rewrite !list_lookup_fmap.
  destruct (l !! i) as [x|]; [|reflexivity].
  destruct (l !! j) as [y|]; [|reflexivity].
  cbn. by rewrite !list_fmap_insert.
Qed.

Lemma swap_entries_nil {A : Type} (i j : nat) (l : list A) :
  l <> [] -> swap_entries i j l <> [].
Proof.
  intros Hne Heq. apply Hne. apply (f_equal length) in Heq.
  unfold swap_entries in Heq.
  destruct (l !! i), (l !! j); rewrite ?length_insert in Heq;
    by destruct l.
Qed.

Lemma swap_entries_Forall {A : Type} (P : A -> Prop) (i j : nat) (l : list A) :
  Forall P l -> Forall P (swap_entries i j l).
Proof.
  intros Hl. unfold swap_entries.
  destruct (l !! i) as [x|] eqn:Hi; [|done].
  destruct (l !! j) as [y|] eqn:Hj; [|done].
  apply Forall_insert; [apply Forall_insert; [done|]|].
  - by apply (Forall_lookup_1 P l j y).
  - by apply (Forall_lookup_1 P l i x).
Qed.

(** C1, as the code has it: for a non-empty payload the clause is the
    comma-joined sequence of quoted columns numbered from 1 in the order of
    [Object.keys] (array-index keys first, in ascending order, then the
    other keys in insertion order), and the values are the payload's values
    in that same order, so that the i-th placeholder stands for the i-th
    value; for a payload without array-index key this is insertion order,
    and exchanging two entries exchanges the columns of the clause and the
    values alike. *)
Theorem C1_clause_and_values_follow_key_order (payload fieldMap : obj) :
  payload <> [] ->
  sqlForPartialUpdate payload fieldMap
  = inr {| setCols := set_clause (column_of fieldMap <$> Object_keys payload);
           values := Object_values payload |}
  /\ (forall (i : nat) (key : string) (v : js_value),
        Object_entries payload !! i = Some (key, v) ->
        imap numbered_fragment (column_of fieldMap <$> Object_keys payload) !! i
        = Some (dquote +:+ column_of fieldMap key +:+ dquote
                       +:+ "=$" +:+ pretty (i + 1))
        /\ Object_values payload !! i = Some v)
  /\ (Object_entries payload
      = (index_part fst payload).*2
          ++ filter (fun kv => array_index kv.1 = None) payload
      /\ (index_part fst payload).*2
         ≡ₚ filter (fun kv => is_Some (array_index kv.1)) payload
      /\ Forall (fun nkv => array_index nkv.2.1 = Some nkv.1)
           (index_part fst payload)
      /\ Sorted N.le (index_part fst payload).*1)
  /\ (Forall (fun kv => array_index kv.1 = None) payload ->
      Object_entries payload = payload
      /\ sqlForPartialUpdate payload fieldMap
         = inr {| setCols := set_clause (columns_of fieldMap payload);
                  values := payload.*2 |}
      /\ forall i j : nat,
           sqlForPartialUpdate (swap_entries i j payload) fieldMap
           = inr {| setCols :=
                      set_clause
                        (swap_entries i j (columns_of fieldMap payload));
                    values := swap_entries i j payload.*2 |}).
Proof.
  intros Hne. split; [by apply sqlForPartialUpdate_nonempty|]. split.
  { intros i key v Hi. unfold Object_keys, Object_values. split.
    - rewrite list_lookup_imap, !list_lookup_fmap, Hi. reflexivity.
    - by rewrite list_lookup_fmap, Hi. }
  split.
  { split; [by rewrite <- named_part_filter|].
    split; [apply index_part_perm|].
    split; [apply index_part_indices|apply index_part_sorted]. }
  intros Hnamed.
  assert (Hsame : forall o : obj,
            Forall (fun kv => array_index kv.1 = None) o ->
            Object_entries o = o) by (intros o; apply enumerate_named).
  split; [by apply Hsame|]. split.
  { rewrite sqlForPartialUpdate_nonempty by done.
    unfold Object_keys, Object_values, columns_of. by rewrite Hsame. }
  intros i j.
  rewrite sqlForPartialUpdate_nonempty by by apply swap_entries_nil.
  unfold Object_keys, Object_values, columns_of.
  rewrite Hsame by by apply swap_entries_Forall.
  by rewrite !fmap_swap_entries.
Qed.

Lemma C1_witness :
  [("a", VStr "x"); ("b", VNum 5)] <> ([] : obj)
  /\ Forall (fun kv : string * js_value => array_index kv.1 = None)
       [("a", VStr "x"); ("b", VNum 5)]
  /\ sqlForPartialUpdate
       [("a", VStr "x"); ("b", VNum 5)]
       [("a", VStr "col_a"); ("b", VStr "col_b")]
     = inr {| setCols := dquote +:+ "col_a" +:+ dquote +:+ "=$1, "
                         +:+ dquote +:+ "col_b" +:+ dquote +:+ "=$2";
              values := [VStr "x"; VNum 5] |}
  /\ sqlForPartialUpdate
       (swap_entries 0 1 [("a", VStr "x"); ("b", VNum 5)])
       [("a", VStr "col_a"); ("b", VStr "col_b")]
     = inr {| setCols := dquote +:+ "col_b" +:+ dquote +:+ "=$1, "
                         +:+ dquote +:+ "col_a" +:+ dquote +:+ "=$2";
              values := [VNum 5; VStr "x"] |}.
Proof.
  assert (Hne : [("a", VStr "x"); ("b", VNum 5)] <> ([] : obj)) by discriminate.
  assert (Hnamed : Forall (fun kv : string * js_value => array_index kv.1 = None)
                     [("a", VStr "x"); ("b", VNum 5)])
    by (repeat constructor).
  pose proof (C1_clause_and_values_follow_key_order
                [("a", VStr "x"); ("b", VNum 5)]
                [("a", VStr "col_a"); ("b", VStr "col_b")] Hne) as H.
  split; [exact Hne|]. split; [exact Hnamed|]. split.
  - exact (proj1 H).
  - exact (proj2 (proj2 (proj2 (proj2 (proj2 H)) Hnamed)) 0 1).
Defined.

(** C1 as stated fails: in the payload [{b: x, 1: 5}] the key [b] is
    inserted first, yet the clause numbers the column [1] first and the
    values come as [5], [x]; the payload with the two entries inserted the
    other way round gives the very same clause and values. *)
Lemma C1_index_key_comes_first :
  sqlForPartialUpdate [("b", VStr "x"); ("1", VNum 5)] []
  = inr {| setCols := dquote +:+ "1" +:+ dquote +:+ "=$1, "
                      +:+ dquote +:+ "b" +:+ dquote +:+ "=$2";
           values := [VNum 5; VStr "x"] |}
  /\ set_clause (columns_of [] [("b", VStr "x"); ("1", VNum 5)])
     = dquote +:+ "b" +:+ dquote +:+ "=$1, "
       +:+ dquote +:+ "1" +:+ dquote +:+ "=$2"
  /\ sqlForPartialUpdate [("1", VNum 5); ("b", VStr "x")] []
     = sqlForPartialUpdate [("b", VStr "x"); ("1", VNum 5)] [].
Proof. repeat split. Qed.

(** C3: an empty payload fails with the bad-request error whose message is
    [No data], whatever the field map, and yields no clause/value pair; a
    non-empty payload never raises it. *)
Theorem C3_empty_payload_is_bad_request (payload fieldMap : obj) :
  match payload with
  | [] =>
      sqlForPartialUpdate payload fieldMap
      = inl (BadRequestError (Text "No data"))
  | _ :: _ =>
      exists r : update_sql, sqlForPartialUpdate payload fieldMap = inr r
  end.
Proof.
  destruct payload as [|kv rest]; [reflexivity|].
  eexists. by apply sqlForPartialUpdate_nonempty.
Qed.

Lemma get_prop_absent (o : obj) (k : string) :
  k ∉ o.*1 -> get_prop o k = Object_prototype k.
Proof.
  induction o as [|[k0 v0] o IH]; cbn; [done|].
  rewrite not_elem_of_cons. intros [Hne Hout].
  destruct (String.eqb_spec k0 k); [congruence|]. by apply IH.
Qed.

Lemma ToBoolean_false (v : js_value) :
  ToBoolean v = false
  <-> v ∈ [VUndefined; VNull; VBool false; VNum 0; VNaN; VStr EmptyString].
Proof.
  rewrite !elem_of_cons, elem_of_nil.
  destruct v as [| |[]|z| |s|ps|nm]; cbn; split; intros H;
    try discriminate; try tauto;
    try (repeat (destruct H as [H|H]); discriminate || done).
  - apply negb_false_iff, Z.eqb_eq in H. subst. tauto.
  - repeat (destruct H as [H|H]); try discriminate; try done.
    by injection H as ->.
  - apply negb_false_iff, String.eqb_eq in H. subst. tauto.
  - repeat (destruct H as [H|H]); try discriminate; try done.
    by injection H as ->.
Qed.



(** A key that names a built-in member is not absent for the lookup: with
    the empty map, [toString] is written as the text of the inherited
    function. *)
Example inherited_member_is_not_falsy :
  ToBoolean (get_prop [] "toString") = true
  /\ sqlForPartialUpdate [("toString", VNum 1)] []
     = inr {| setCols := dquote +:+ "function toString() { [native code] }"
                         +:+ dquote +:+ "=$1";
              values := [VNum 1] |}.
Proof. split; reflexivity. Qed.

(** ** [Job.update] *)

Lemma update_issues_one_statement {DB : Type}
    (exec : DB -> string -> list js_value -> list obj * DB) (db : DB)
    (id : js_value) (data : obj) (r : update_sql) :
  sqlForPartialUpdate data [] = inr r ->
  issued (run exec (Job.update id data) db)
  = [(Job.update_sql_text (setCols r) ("$" +:+ pretty (length (values r) + 1)),
      values r ++ [id])].
Proof.
  intros Hr. unfold Job.update, run. rewrite Hr. cbn [run_from].
  destruct (exec db _ _) as [rows db']. by destruct rows.
Qed.

(** C2: for a non-empty payload the placeholders of the clause are the
    numbers 1..n in order, n being the length of the returned values, so
    n + 1 is the next free index; [Job.update] binds the row id there: its
    [WHERE] placeholder is [$(n+1)] and the id is the (n+1)-th parameter,
    after the [SET] values. *)
Theorem C2_placeholders_contiguous_from_1
    (data jsToSql : obj) (id : js_value) :
  data <> [] ->
  exists r : update_sql,
    sqlForPartialUpdate data jsToSql = inr r
    /\ setCols r
       = String.concat ", " (imap (set_fragment jsToSql) (Object_keys data))
    /\ length (imap (set_fragment jsToSql) (Object_keys data))
       = length (values r)
    /\ (forall i : nat, i < length (values r) ->
          exists column : string,
            imap (set_fragment jsToSql) (Object_keys data) !! i
            = Some (dquote +:+ column +:+ dquote +:+ "=$" +:+ pretty (i + 1)))
    /\ (forall i : nat, i < length (values r) ->
          (pretty (length (values r) + 1) : string) <> pretty (i + 1))
    /\ exists r0 : update_sql,
         sqlForPartialUpdate data [] = inr r0
         /\ values r0 = values r
         /\ (forall (DB : Type)
                    (exec : DB -> string -> list js_value -> list obj * DB)
                    (db : DB),
               issued (run exec (Job.update id data) db)
               = [(Job.update_sql_text
                     (setCols r0) ("$" +:+ pretty (length (values r) + 1)),
                   values r ++ [id])])
         /\ (values r ++ [id]) !! length (values r) = Some id
         /\ (forall (i : nat) (v : js_value),
               values r !! i = Some v -> (values r ++ [id]) !! i = Some v).
Proof.
  intros Hne. eexists. split; [by apply sqlForPartialUpdate_nonempty|].
  cbn [setCols values]. split.
  { unfold set_clause. by rewrite imap_set_fragment. }
  split.
  { by rewrite length_imap, length_Object_keys, length_Object_values. }
  split.
  { intros i Hi. rewrite length_Object_values, <- length_Object_keys in Hi.
    destruct (lookup_lt_is_Some_2 (Object_keys data) i Hi) as [key Hkey].
    exists (column_of jsToSql key).
    by rewrite list_lookup_imap, Hkey. }
  split.
  { intros i Hi Heq. apply (inj pretty) in Heq. lia. }
  eexists. split; [by apply sqlForPartialUpdate_nonempty|].
  cbn [setCols values]. split; [reflexivity|]. split.
  { intros DB exec db.
    by rewrite (update_issues_one_statement exec db id data _
                  (sqlForPartialUpdate_nonempty data [] Hne)). }
  split.
  { by rewrite lookup_app_r, Nat.sub_diag. }
  intros i v Hv. by apply lookup_app_l_Some.
Qed.

Lemma C2_witness :
  [("title", VStr "New"); ("salary", VNum 500)] <> ([] : obj)
  /\ exists r : update_sql,
       sqlForPartialUpdate [("title", VStr "New"); ("salary", VNum 500)] []
       = inr r
       /\ setCols r = dquote +:+ "title" +:+ dquote +:+ "=$1, "
                      +:+ dquote +:+ "salary" +:+ dquote +:+ "=$2"
       /\ length (values r) = 2
       /\ issued (run demo_exec
                    (Job.update (VNum 1)
                       [("title", VStr "New"); ("salary", VNum 500)]) tt)
          = [(Job.update_sql_text (setCols r) "$3",
              [VStr "New"; VNum 500; VNum 1])].
Proof.
  split; [discriminate|].
  destruct (C2_placeholders_contiguous_from_1
              [("title", VStr "New"); ("salary", VNum 500)] [] (VNum 1))
    as (r & Hr & Hcols & Hlen & _ & _ & r0 & Hr0 & Hval & Hrun & _);
    [discriminate|].
  exists r. split; [exact Hr|].
  injection Hr as <-. split; [reflexivity|]. split; [reflexivity|].
  injection Hr0 as <-. exact (Hrun unit demo_exec tt).
Defined.

(** ** [Job.findAll] *)

(** The pushes of the three [if]s, in closed form. *)
Lemma findAll_filters_closed (minSalary hasEquity title : js_value) :
  Job.findAll_filters minSalary hasEquity title
  = ((if is_defined minSalary then ["salary >= $1"] else [])
       ++ (if is_true hasEquity then ["equity > 0"] else [])
       ++ (if is_defined title
           then ["title ILIKE $" +:+ (if is_defined minSalary then "2" else "1")]
           else []),
     (if is_defined minSalary then [minSalary] else [])
       ++ (if is_defined title
           then [VStr ("%" +:+ ToString title +:+ "%")] else [])).
Proof.
  unfold Job.findAll_filters.
  by destruct (is_defined minSalary), (is_true hasEquity), (is_defined title).
Qed.

Lemma findAll_unfold (criteria : obj) :
  Job.findAll (Some criteria)
  = Query
      (Job.findAll_statement
         (get_prop criteria "minSalary")
         (get_prop criteria "hasEquity")
         (get_prop criteria "title")).1
      (Job.findAll_statement
         (get_prop criteria "minSalary")
         (get_prop criteria "hasEquity")
         (get_prop criteria "title")).2
      Return.
Proof.
  unfold Job.findAll. by destruct (Job.findAll_statement _ _ _).
Qed.

Lemma findAll_no_argument : Job.findAll None = Job.findAll (Some []).
Proof. reflexivity. Qed.

Lemma findAll_no_argument_default (arg : option obj) :
  Job.findAll arg
  = Job.findAll (Some (match arg with Some o => o | None => [] end)).
Proof. by destruct arg. Qed.

Lemma findAll_statement_unfold (minSalary hasEquity title : js_value) :
  Job.findAll_statement minSalary hasEquity title
  = ((if Nat.ltb 0 (length (Job.findAll_filters minSalary hasEquity title).1)
      then Job.findAll_base +:+ " WHERE "
           +:+ String.concat " AND "
                 (Job.findAll_filters minSalary hasEquity title).1
      else Job.findAll_base) +:+ " ORDER BY title",
     (Job.findAll_filters minSalary hasEquity title).2).
Proof.
  unfold Job.findAll_statement.
  by destruct (Job.findAll_filters minSalary hasEquity title).
Qed.

Lemma is_true_spec (v : js_value) : is_true v = true <-> v = VBool true.
Proof. destruct v as [| |[]| | | | |]; cbn; split; congruence. Qed.

Lemma get_prop_delete_ne (o : obj) (k k' : string) :
  k <> k' -> get_prop (delete_prop o k) k' = get_prop o k'.
Proof.
  intros Hne. induction o as [|[k0 v0] o IH]; [reflexivity|]. cbn.
  destruct (String.eqb_spec k0 k) as [->|Hk].
  - rewrite IH. destruct (String.eqb_spec k k'); congruence.
  - cbn. by rewrite IH.
Qed.

Lemma get_prop_delete_eq (o : obj) (k : string) :
  get_prop (delete_prop o k) k = Object_prototype k.
Proof.
  induction o as [|[k0 v0] o IH]; [reflexivity|]. cbn.
  destruct (String.eqb_spec k0 k) as [->|Hk]; [exact IH|].
  cbn. destruct (String.eqb_spec k0 k); congruence.
Qed.

Lemma get_prop_set (o : obj) (k k' : string) (v : js_value) :
  get_prop (set_prop o k v) k'
  = if String.eqb k k' then v else get_prop o k'.
Proof.
  induction o as [|[k0 v0] o IH]; [reflexivity|]. cbn.
  destruct (String.eqb_spec k0 k) as [->|Hk]; cbn.
  - by destruct (String.eqb k k').
  - rewrite IH. destruct (String.eqb_spec k0 k') as [->|]; [|reflexivity].
    by destruct (String.eqb_spec k k').
Qed.

(** C4: [hasEquity] contributes when and only when it is exactly [true];
    then it adds the one literal clause [equity > 0] and binds nothing; any
    other value, or none, adds neither clause nor parameter, and the call
    with [{hasEquity: false}] is the call with [{}].  The statement that
    [Job.findAll] sends is given in full for both cases: with the flag the
    text has [equity > 0] between the salary and the title predicates,
    without it the text is the same less that clause, and the parameters
    are the same. *)
Theorem C4_hasEquity_contributes_only_when_true
    (minSalary hasEquity title : js_value) :
  ("equity > 0" ∈ (Job.findAll_filters minSalary hasEquity title).1
   <-> hasEquity = VBool true)
  /\ (exists pre post : list string,
        (Job.findAll_filters minSalary (VBool true) title).1
        = pre ++ ["equity > 0"] ++ post
        /\ (Job.findAll_filters minSalary VUndefined title).1 = pre ++ post
        /\ "equity > 0" ∉ pre ++ post)
  /\ (Job.findAll_filters minSalary hasEquity title).2
     = (Job.findAll_filters minSalary VUndefined title).2
  /\ (hasEquity <> VBool true ->
      Job.findAll_statement minSalary hasEquity title
      = Job.findAll_statement minSalary VUndefined title)
  /\ (forall criteria : obj,
        get_prop criteria "hasEquity" <> VBool true ->
        Job.findAll (Some criteria)
        = Job.findAll (Some (delete_prop criteria "hasEquity")))
  /\ Job.findAll (Some [("hasEquity", VBool false)]) = Job.findAll (Some [])
  /\ Job.findAll (Some [("hasEquity", VBool false)]) = Job.findAll None
  /\ (forall criteria : obj,
        Job.findAll (Some criteria)
        = Query
            (Job.findAll_statement (get_prop criteria "minSalary")
               (get_prop criteria "hasEquity") (get_prop criteria "title")).1
            (Job.findAll_statement (get_prop criteria "minSalary")
               (get_prop criteria "hasEquity") (get_prop criteria "title")).2
            Return)
  /\ Job.findAll_statement minSalary (VBool true) title
     = ((Job.findAll_base +:+ " WHERE "
           +:+ String.concat " AND "
                 ((if is_defined minSalary then ["salary >= $1"] else [])
                    ++ ["equity > 0"]
                    ++ (if is_defined title
                        then ["title ILIKE $"
                                +:+ (if is_defined minSalary then "2" else "1")]
                        else [])))
          +:+ " ORDER BY title",
        (if is_defined minSalary then [minSalary] else [])
          ++ (if is_defined title
              then [VStr ("%" +:+ ToString title +:+ "%")] else []))
  /\ (hasEquity <> VBool true ->
      Job.findAll_statement minSalary hasEquity title
      = ((if Nat.ltb 0
               (length
                  ((if is_defined minSalary then ["salary >= $1"] else [])
                     ++ (if is_defined title
                         then ["title ILIKE $"
                                 +:+ (if is_defined minSalary then "2" else "1")]
                         else [])))
          then Job.findAll_base +:+ " WHERE "
               +:+ String.concat " AND "
                     ((if is_defined minSalary then ["salary >= $1"] else [])
                        ++ (if is_defined title
                            then ["title ILIKE $"
                                    +:+ (if is_defined minSalary
                                         then "2" else "1")]
                            else []))
          else Job.findAll_base) +:+ " ORDER BY title",
         (if is_defined minSalary then [minSalary] else [])
           ++ (if is_defined title
               then [VStr ("%" +:+ ToString title +:+ "%")] else []))).
Proof.
  assert (Hother : forall ms he t, he <> VBool true ->
            Job.findAll_statement ms he t = Job.findAll_statement ms VUndefined t).
  { intros ms he t Hne. rewrite !findAll_statement_unfold, !findAll_filters_closed.
    destruct (is_true he) eqn:He; [by apply is_true_spec in He|]. reflexivity. }
  split.
  { rewrite findAll_filters_closed. cbn [fst].
    rewrite !elem_of_app, <- is_true_spec.
    destruct (is_defined minSalary), (is_true hasEquity), (is_defined title);
      rewrite ?elem_of_cons, ?elem_of_nil; split; intros H;
      try reflexivity; try (by right; left; left);
      repeat (destruct H as [H|H]); discriminate || done. }
  split.
  { exists (if is_defined minSalary then ["salary >= $1"] else []),
           (if is_defined title
            then ["title ILIKE $" +:+ (if is_defined minSalary then "2" else "1")]
            else []).
    rewrite !findAll_filters_closed. cbn [fst is_true app].
    split; [reflexivity|]. split; [reflexivity|].
    rewrite elem_of_app.
    destruct (is_defined minSalary), (is_defined title);
      rewrite ?elem_of_cons, ?elem_of_nil; intros H;
      repeat (destruct H as [H|H]); discriminate || done. }
  split; [by rewrite !findAll_filters_closed|].
  split; [apply Hother|].
  split.
  { intros criteria Hne. rewrite !findAll_unfold.
    rewrite get_prop_delete_eq, !get_prop_delete_ne by discriminate.
    change (Object_prototype "hasEquity") with VUndefined.
    by rewrite (Hother _ _ _ Hne). }
  split; [reflexivity|]. split; [reflexivity|].
  split; [apply findAll_unfold|]. split.
  { rewrite findAll_statement_unfold, findAll_filters_closed. cbn [fst snd is_true].
    by destruct (is_defined minSalary), (is_defined title). }
  intros Hne. rewrite findAll_statement_unfold, findAll_filters_closed.
  cbn [fst snd].
  destruct (is_true hasEquity) eqn:He; [by apply is_true_spec in He|].
  reflexivity.
Qed.

Lemma C4_witness :
  get_prop [("hasEquity", VStr "true"); ("minSalary", VNum 100)] "hasEquity"
  <> VBool true
  /\ Job.findAll (Some [("hasEquity", VStr "true"); ("minSalary", VNum 100)])
     = Job.findAll (Some [("minSalary", VNum 100)]).
Proof.
  split; [discriminate|].
  exact (proj1 (proj2 (proj2 (proj2 (proj2
           (C4_hasEquity_contributes_only_when_true VUndefined VUndefined VUndefined)))))
           [("hasEquity", VStr "true"); ("minSalary", VNum 100)]
           ltac:(discriminate)).
Defined.

(** The statement sent with and without the flag. *)
Example findAll_with_equity :
  Job.findAll (Some [("hasEquity", VBool true); ("minSalary", VNum 100)])
  = Query (Job.findAll_base
             +:+ " WHERE salary >= $1 AND equity > 0 ORDER BY title")
          [VNum 100] Return
  /\ Job.findAll (Some [("hasEquity", VBool false); ("minSalary", VNum 100)])
     = Query (Job.findAll_base +:+ " WHERE salary >= $1 ORDER BY title")
             [VNum 100] Return.
Proof. split; reflexivity. Qed.

(** C5: whatever criteria are present, and in whatever order the criteria
    object lists them, the clauses come in the order [minSalary],
    [hasEquity], [title] and are joined with [ AND ]; the number written in
    a clause is the 1-based position of its value among the parameters, the
    literal [equity > 0] taking none. *)
Theorem C5_fixed_order_and_matching_placeholders
    (criteria : obj) (minSalary hasEquity title : js_value) :
  get_prop criteria "minSalary" = minSalary ->
  get_prop criteria "hasEquity" = hasEquity ->
  get_prop criteria "title" = title ->
  exists (clauses : list string) (params : list js_value),
    Job.findAll (Some criteria)
    = Query
        ((if Nat.ltb 0 (length clauses)
          then Job.findAll_base +:+ " WHERE " +:+ String.concat " AND " clauses
          else Job.findAll_base) +:+ " ORDER BY title")
        params Return
    /\ clauses
       = (if is_defined minSalary then ["salary >= $" +:+ pretty 1] else [])
           ++ (if is_true hasEquity then ["equity > 0"] else [])
           ++ (if is_defined title
               then ["title ILIKE $" +:+ pretty (length params)] else [])
    /\ params
       = (if is_defined minSalary then [minSalary] else [])
           ++ (if is_defined title
               then [VStr ("%" +:+ ToString title +:+ "%")] else [])
    /\ (is_defined minSalary = true -> params !! (1 - 1) = Some minSalary)
    /\ (is_defined title = true ->
        params !! (length params - 1)
        = Some (VStr ("%" +:+ ToString title +:+ "%"))).
Proof.
  intros Hms Hhe Ht.
  exists (Job.findAll_filters minSalary hasEquity title).1,
         (Job.findAll_filters minSalary hasEquity title).2.
  split.
  { rewrite findAll_unfold, Hms, Hhe, Ht.
    by rewrite findAll_statement_unfold. }
  rewrite findAll_filters_closed. cbn [fst snd].
  destruct (is_defined minSalary), (is_true hasEquity), (is_defined title);
    repeat split; intros; reflexivity || discriminate.
Qed.

Lemma C5_witness :
  Job.findAll (Some [("title", VStr "eng"); ("minSalary", VNum 100)])
  = Query (Job.findAll_base
             +:+ " WHERE salary >= $1 AND title ILIKE $2 ORDER BY title")
          [VNum 100; VStr "%eng%"] Return
  /\ Job.findAll (Some [("minSalary", VNum 100); ("title", VStr "eng")])
     = Job.findAll (Some [("title", VStr "eng"); ("minSalary", VNum 100)]).
Proof.
  destruct (C5_fixed_order_and_matching_placeholders
              [("title", VStr "eng"); ("minSalary", VNum 100)]
              (VNum 100) VUndefined (VStr "eng") eq_refl eq_refl eq_refl)
    as (clauses & params & Hq & -> & -> & _).
  destruct (C5_fixed_order_and_matching_placeholders
              [("minSalary", VNum 100); ("title", VStr "eng")]
              (VNum 100) VUndefined (VStr "eng") eq_refl eq_refl eq_refl)
    as (clauses' & params' & Hq' & -> & -> & _).
  split.
  - rewrite Hq. reflexivity.
  - rewrite Hq, Hq'. reflexivity.
Defined.

(** C6: a title is bound, never spliced: the call pushes the one value
    [%title%], emits [title ILIKE $n] with n the position of that value, and
    the SQL text is the same for any two titles.  The statement that
    [Job.findAll] sends is given in full: its text ends with the predicate
    [title ILIKE $n] before the sort and is written without the title, and
    its last parameter is [%title%]. *)
Theorem C6_title_is_bound_not_concatenated
    (minSalary hasEquity : js_value) (t1 t2 : string) :
  (Job.findAll_statement minSalary hasEquity (VStr t1)).1
  = (Job.findAll_statement minSalary hasEquity (VStr t2)).1
  /\ (Job.findAll_statement minSalary hasEquity (VStr t1)).2
     = (Job.findAll_statement minSalary hasEquity VUndefined).2
         ++ [VStr ("%" +:+ t1 +:+ "%")]
  /\ (Job.findAll_filters minSalary hasEquity (VStr t1)).1
     = (Job.findAll_filters minSalary hasEquity VUndefined).1
         ++ ["title ILIKE $"
               +:+ pretty (length (Job.findAll_statement
                                     minSalary hasEquity (VStr t1)).2)]
  /\ (Job.findAll_statement minSalary hasEquity (VStr t1)).2
       !! (length (Job.findAll_statement minSalary hasEquity (VStr t1)).2 - 1)
     = Some (VStr ("%" +:+ t1 +:+ "%"))
  /\ (forall criteria : obj,
        exists (sql : string) (params : list js_value),
          Job.findAll (Some (set_prop criteria "title" (VStr t1)))
          = Query sql (params ++ [VStr ("%" +:+ t1 +:+ "%")]) Return
          /\ Job.findAll (Some (set_prop criteria "title" (VStr t2)))
             = Query sql (params ++ [VStr ("%" +:+ t2 +:+ "%")]) Return)
  /\ Job.findAll_statement minSalary hasEquity (VStr t1)
     = ((Job.findAll_base +:+ " WHERE "
           +:+ String.concat " AND "
                 ((if is_defined minSalary then ["salary >= $1"] else [])
                    ++ (if is_true hasEquity then ["equity > 0"] else [])
                    ++ ["title ILIKE $"
                          +:+ (if is_defined minSalary then "2" else "1")]))
          +:+ " ORDER BY title",
        (if is_defined minSalary then [minSalary] else [])
          ++ [VStr ("%" +:+ t1 +:+ "%")])
  /\ (forall criteria : obj,
        Job.findAll (Some (set_prop criteria "title" (VStr t1)))
        = Query
            ((Job.findAll_base +:+ " WHERE "
                +:+ String.concat " AND "
                      ((if is_defined (get_prop criteria "minSalary")
                        then ["salary >= $1"] else [])
                         ++ (if is_true (get_prop criteria "hasEquity")
                             then ["equity > 0"] else [])
                         ++ ["title ILIKE $"
                               +:+ (if is_defined (get_prop criteria "minSalary")
                                    then "2" else "1")]))
               +:+ " ORDER BY title")
            ((if is_defined (get_prop criteria "minSalary")
              then [get_prop criteria "minSalary"] else [])
               ++ [VStr ("%" +:+ t1 +:+ "%")])
            Return).
Proof.
  rewrite !findAll_statement_unfold, !findAll_filters_closed. cbn [fst snd].
  split; [reflexivity|].
  split; [by destruct (is_defined minSalary)|].
  split; [by destruct (is_defined minSalary), (is_true hasEquity)|].
  split; [by destruct (is_defined minSalary)|].
  split.
  { intros criteria.
    exists (Job.findAll_statement (get_prop criteria "minSalary")
              (get_prop criteria "hasEquity") (VStr t1)).1,
           (if is_defined (get_prop criteria "minSalary")
            then [get_prop criteria "minSalary"] else []).
    rewrite !findAll_unfold, !get_prop_set. cbn [String.eqb Ascii.eqb Bool.eqb].
    rewrite !findAll_statement_unfold, !findAll_filters_closed. cbn [fst snd].
    by split. }
  split.
  { cbn [is_defined].
    by destruct (is_defined minSalary), (is_true hasEquity). }
  intros criteria.
  rewrite findAll_unfold, !get_prop_set. cbn [String.eqb Ascii.eqb Bool.eqb].
  rewrite findAll_statement_unfold, findAll_filters_closed.
  cbn [fst snd is_defined].
  by destruct (is_defined (get_prop criteria "minSalary")),
              (is_true (get_prop criteria "hasEquity")).
Qed.

(** The statement sent for a title: the text never carries the title. *)
Example findAll_with_title :
  Job.findAll (Some [("title", VStr "eng' OR 1=1 --")])
  = Query (Job.findAll_base +:+ " WHERE title ILIKE $1 ORDER BY title")
          [VStr "%eng' OR 1=1 --%"] Return.
Proof. reflexivity. Qed.

(** C7: without criteria, or with criteria that contribute no clause, no
    [WHERE] is appended and nothing is bound: the statement is the base
    [SELECT] followed by the trailing sort alone; the sort ends the statement
    of every call. *)
Theorem C7_no_criteria_no_where :
  Job.findAll None
  = Query (Job.findAll_base +:+ " ORDER BY title") [] Return
  /\ (forall criteria : obj,
        is_defined (get_prop criteria "minSalary") = false ->
        is_true (get_prop criteria "hasEquity") = false ->
        is_defined (get_prop criteria "title") = false ->
        Job.findAll_filters (get_prop criteria "minSalary")
          (get_prop criteria "hasEquity") (get_prop criteria "title") = ([], [])
        /\ Job.findAll (Some criteria)
           = Query (Job.findAll_base +:+ " ORDER BY title") [] Return)
  /\ (forall arg : option obj,
        exists (text : string) (params : list js_value),
          Job.findAll arg = Query (text +:+ " ORDER BY title") params Return).
Proof.
  split; [reflexivity|]. split.
  - intros criteria Hms Hhe Ht.
    rewrite findAll_unfold, findAll_statement_unfold, findAll_filters_closed.
    by rewrite Hms, Hhe, Ht.
  - intros arg. rewrite (findAll_no_argument_default arg), findAll_unfold.
    rewrite findAll_statement_unfold. cbn [fst snd]. by eexists _, _.
Qed.

Lemma C7_witness :
  is_defined (get_prop [("hasEquity", VBool false)] "minSalary") = false
  /\ is_true (get_prop [("hasEquity", VBool false)] "hasEquity") = false
  /\ is_defined (get_prop [("hasEquity", VBool false)] "title") = false
  /\ Job.findAll (Some [("hasEquity", VBool false)])
     = Query (Job.findAll_base +:+ " ORDER BY title") [] Return.
Proof.
  repeat (split; [reflexivity|]).
  exact (proj2 (proj1 (proj2 C7_no_criteria_no_where)
                  [("hasEquity", VBool false)] eq_refl eq_refl eq_refl)).
Defined.


(** ** [Job.get] *)

Lemma keys_set_after_delete (o : obj) (k k' : string) (v : js_value) :
  k <> k' -> k ∉ (set_prop (delete_prop o k) k' v).*1.
Proof.
  intros Hne. induction o as [|[k0 v0] o IH]; cbn.
  - rewrite elem_of_cons, elem_of_nil. intros [?|[]]. congruence.
  - destruct (String.eqb_spec k0 k) as [->|Hk]; [exact IH|]. cbn.
    destruct (String.eqb_spec k0 k') as [->|Hk']; cbn.
    + rewrite elem_of_cons. intros [?|Hin]; [congruence|].
      clear IH. induction o as [|[k1 v1] o IH]; cbn in Hin; [by inversion Hin|].
      destruct (String.eqb_spec k1 k) as [->|Hk1]; [by apply IH|].
      cbn in Hin. apply elem_of_cons in Hin as [?|Hin]; [congruence|by apply IH].
    + rewrite elem_of_cons. intros [?|Hin]; [congruence|by apply IH].
Qed.

(** C8: [Job.get] throws the not-found error, whose message ends with the
    id, exactly when the first statement yields no row, and then issues no
    second statement; otherwise it looks the company up by the row's
    [companyHandle], and returns the row without [companyHandle] and with
    the fetched company under [company]. *)
Theorem C8_get_not_found_or_company_nested {DB : Type}
    (exec : DB -> string -> list js_value -> list obj * DB)
    (db : DB) (id : js_value) :
  match exec db Job.get_job_sql [id] with
  | ([], _) =>
      result (run exec (Job.get id) db)
      = inl (NotFoundError (Text ("No job: " +:+ ToString id)))
      /\ issued (run exec (Job.get id) db) = [(Job.get_job_sql, [id])]
  | (job :: _, db1) =>
      exists (found : obj) (company : js_value),
        result (run exec (Job.get id) db) = inr found
        /\ company
           = match (exec db1 Job.get_company_sql
                      [get_prop job "companyHandle"]).1 with
             | [] => VUndefined
             | c :: _ => VObj c
             end
        /\ found = set_prop (delete_prop job "companyHandle") "company" company
        /\ ("companyHandle" ∉ Object_keys found)
        /\ get_prop found "company" = company
        /\ (forall k : string,
              k <> "companyHandle" -> k <> "company" ->
              get_prop found k = get_prop job k)
        /\ issued (run exec (Job.get id) db)
           = [(Job.get_job_sql, [id]);
              (Job.get_company_sql, [get_prop job "companyHandle"])]
  end.
Proof.
  unfold run, Job.get. cbn [run_from].
  destruct (exec db Job.get_job_sql [id]) as [[|job rest] db1] eqn:Hjob.
  - by split.
  - cbn [run_from app].
    destruct (exec db1 Job.get_company_sql [get_prop job "companyHandle"])
      as [companyResults db2] eqn:Hco.
    cbn [run_from result issued fst app].
    eexists _, _. split; [reflexivity|]. split; [reflexivity|].
    split; [reflexivity|]. split.
    { rewrite elem_of_Object_keys. by apply keys_set_after_delete. }
    split.
    { by rewrite get_prop_set. }
    split; [|reflexivity].
    intros k Hk1 Hk2. rewrite get_prop_set.
    destruct (String.eqb_spec "company" k); [congruence|].
    by apply get_prop_delete_ne.
Qed.

Example get_existing_job :
  result (run demo_exec (Job.get (VNum 1)) tt)
  = inr [("id", VNum 1); ("title", VStr "Engineer"); ("salary", VNum 100);
         ("equity", VStr "0.1"); ("company", VObj demo_company)].
Proof. reflexivity. Qed.

Example get_missing_job :
  result (run demo_exec (Job.get (VNum 2)) tt)
  = inl (NotFoundError (Text "No job: 2"))
  /\ issued (run demo_exec (Job.get (VNum 2)) tt)
     = [(Job.get_job_sql, [VNum 2])].
Proof. split; reflexivity. Qed.

(** ** The companies list handler *)

Lemma companies_list_unfold
    (StringToNumber : string -> js_value) (validate : obj -> list string)
    (query : obj) :
  companies_list StringToNumber validate query
  = match validate (coerce_bounds StringToNumber query) with
    | [] => CallFindAll (coerce_bounds StringToNumber query) companies_respond
    | errs => Respond (Next (BadRequestError (Stacks errs)))
    end.
Proof.
  unfold companies_list.
  by destruct (validate (coerce_bounds StringToNumber query)).
Qed.

Lemma property_wise_pair (validate : obj -> list string)
    (k1 k2 : string) (v1 v2 : js_value) :
  property_wise validate ->
  validate [(k1, v1); (k2, v2)] = validate [(k1, v1)] ++ validate [(k2, v2)].
Proof.
  intros [check Hcheck]. rewrite !Hcheck. cbn. by rewrite !app_nil_r.
Qed.


(** * Further properties of the code *)

(** ** Running a model method *)

Lemma run_from_log {DB A : Type}
    (exec : DB -> string -> list js_value -> list obj * DB)
    (p : db_prog A) (log : list statement) (db : DB) :
  result (run_from exec log p db) = result (run exec p db)
  /\ issued (run_from exec log p db) = log ++ issued (run exec p db)
  /\ final_db (run_from exec log p db) = final_db (run exec p db).
Proof.
  unfold run. revert log db.
  induction p as [a|e|sql params k IH]; intros log db; cbn.
  - by rewrite app_nil_r.
  - by rewrite app_nil_r.
  - destruct (exec db sql params) as [rows db'].
    destruct (IH rows (log ++ [(sql, params)]) db') as (-> & -> & ->).
    destruct (IH rows [(sql, params)] db') as (-> & -> & ->).
    by rewrite <- app_assoc.
Qed.

Lemma run_query {DB A : Type}
    (exec : DB -> string -> list js_value -> list obj * DB)
    (sql : string) (params : list js_value) (k : list obj -> db_prog A) (db : DB) :
  result (run exec (Query sql params k) db)
  = result (run exec (k (exec db sql params).1) (exec db sql params).2)
  /\ issued (run exec (Query sql params k) db)
     = (sql, params)
         :: issued (run exec (k (exec db sql params).1) (exec db sql params).2)
  /\ final_db (run exec (Query sql params k) db)
     = final_db (run exec (k (exec db sql params).1) (exec db sql params).2).
Proof.
  unfold run at 1 3 5. cbn [run_from].
  destruct (exec db sql params) as [rows db']. cbn [fst snd app].
  destruct (run_from_log exec (k rows) [(sql, params)] db') as (-> & -> & ->).
  done.
Qed.

(** What a handler does is what the model method did, with the value
    answered and the exception handed to [next]. *)
Lemma run_respond_with {DB A : Type}
    (exec : DB -> string -> list js_value -> list obj * DB)
    (p : db_prog A) (ok : A -> reply) (db : DB) :
  result (run exec (respond_with p ok) db)
  = inr (match result (run exec p db) with
         | inr a => ok a
         | inl err => PassNext err
         end)
  /\ issued (run exec (respond_with p ok) db) = issued (run exec p db)
  /\ final_db (run exec (respond_with p ok) db) = final_db (run exec p db).
Proof.
  revert db. induction p as [a|e|sql params k IH]; intros db.
  - done.
  - done.
  - cbn [respond_with].
    destruct (run_query exec sql params
                (fun rows => respond_with (k rows) ok) db) as (-> & -> & ->).
    destruct (run_query exec sql params k db) as (-> & -> & ->).
    destruct (IH (exec db sql params).1 (exec db sql params).2) as (-> & -> & ->).
    done.
Qed.

(** Against a database that answers every statement, the two runs agree. *)
Lemma attempt_answered {E DB A : Type}
    (exec : DB -> string -> list js_value -> list obj * DB)
    (p : db_prog A) (db : DB) :
  ended (attempt_run (E := E)
           (fun d sql params => (inr (exec d sql params).1, (exec d sql params).2))
           p db)
  = match result (run exec p db) with
    | inl e => inl (Thrown e)
    | inr a => inr a
    end
  /\ sent (attempt_run (E := E)
             (fun d sql params => (inr (exec d sql params).1, (exec d sql params).2))
             p db)
     = issued (run exec p db)
  /\ left_db (attempt_run (E := E)
                (fun d sql params =>
                   (inr (exec d sql params).1, (exec d sql params).2))
                p db)
     = final_db (run exec p db).
Proof.
  unfold attempt_run, run. generalize (@nil statement) as log. revert db.
  induction p as [a|e|sql params k IH]; intros db log; cbn; [done|done|].
  destruct (exec db sql params) as [rows db']. cbn. apply IH.
Qed.

(** ** [sqlForPartialUpdate], further *)

(** X1: the clause is built from the keys and the field map alone: two
    payloads with the same keys give the same clause, whatever their
    values; and the values do not depend on the field map. *)
Theorem X1_clause_ignores_values (d1 d2 m1 m2 : obj) :
  Object_keys d1 = Object_keys d2 ->
  match sqlForPartialUpdate d1 m1, sqlForPartialUpdate d2 m1 with
  | inr r1, inr r2 => setCols r1 = setCols r2
  | inl e1, inl e2 => e1 = e2
  | _, _ => False
  end
  /\ match sqlForPartialUpdate d1 m1, sqlForPartialUpdate d1 m2 with
     | inr r1, inr r2 => values r1 = values r2 /\ values r1 = Object_values d1
     | inl e1, inl e2 => e1 = e2
     | _, _ => False
     end.
Proof.
  intros Hkeys. unfold sqlForPartialUpdate. rewrite <- Hkeys.
  by destruct (Nat.eqb (length (Object_keys d1)) 0).
Qed.

Lemma X1_witness :
  Object_keys [("title", VStr "a"); ("salary", VNum 1)]
  = Object_keys [("title", VStr "b'; DROP TABLE jobs; --"); ("salary", VNull)]
  /\ match sqlForPartialUpdate [("title", VStr "a"); ("salary", VNum 1)] [],
           sqlForPartialUpdate
             [("title", VStr "b'; DROP TABLE jobs; --"); ("salary", VNull)] []
     with
     | inr r1, inr r2 => setCols r1 = setCols r2
     | inl e1, inl e2 => e1 = e2
     | _, _ => False
     end.
Proof.
  split; [reflexivity|].
  exact (proj1 (X1_clause_ignores_values
                  [("title", VStr "a"); ("salary", VNum 1)]
                  [("title", VStr "b'; DROP TABLE jobs; --"); ("salary", VNull)]
                  [] [] eq_refl)).
Defined.

(** X2: a key whose entry in the field map is a non-empty string is written
    with that string as its column, not with its own name, at its place in
    the order of [Object.keys]. *)
Theorem X2_mapped_key_uses_mapped_column
    (payload jsToSql : obj) (i : nat) (key col : string) :
  Object_keys payload !! i = Some key ->
  get_prop jsToSql key = VStr col ->
  col <> EmptyString ->
  exists r : update_sql,
    sqlForPartialUpdate payload jsToSql = inr r
    /\ setCols r
       = String.concat ", " (imap (set_fragment jsToSql) (Object_keys payload))
    /\ imap (set_fragment jsToSql) (Object_keys payload) !! i
       = Some (dquote +:+ col +:+ dquote +:+ "=$" +:+ pretty (i + 1)).
Proof.
  intros Hi Hcol Hne.
  assert (Hpl : payload <> []) by (intros ->; discriminate).
  eexists. split; [by apply sqlForPartialUpdate_nonempty|]. split.
  - cbn [setCols]. unfold set_clause. by rewrite imap_set_fragment.
  - rewrite list_lookup_imap, Hi. cbn.
    unfold set_fragment, js_or. rewrite Hcol. cbn.
    destruct (String.eqb_spec col EmptyString); [congruence|done].
Qed.

Lemma X2_witness :
  Object_keys [("firstName", VStr "Al"); ("age", VNum 50)] !! 0
  = Some "firstName"
  /\ imap (set_fragment [("firstName", VStr "first_name")])
          (Object_keys [("firstName", VStr "Al"); ("age", VNum 50)]) !! 0
     = Some (dquote +:+ "first_name" +:+ dquote +:+ "=$1").
Proof.
  split; [reflexivity|].
  destruct (X2_mapped_key_uses_mapped_column
              [("firstName", VStr "Al"); ("age", VNum 50)]
              [("firstName", VStr "first_name")]
              0 "firstName" "first_name" eq_refl eq_refl)
    as (r & _ & _ & H); [discriminate|exact H].
Defined.

(** ** [Job.update], [Job.remove], [Job.create], further *)

Lemma column_of_no_map (key : string) :
  Object_prototype key = VUndefined -> column_of [] key = key.
Proof. unfold column_of, js_or. cbn. by intros ->. Qed.

Lemma columns_of_no_map (keys : list string) :
  Forall (fun k => Object_prototype k = VUndefined) keys ->
  column_of [] <$> keys = keys.
Proof.
  induction 1 as [|k keys Hk _ IH]; cbn; [done|].
  by rewrite column_of_no_map, IH.
Qed.

(** X3: [Job.update] with no field to change throws the bad-request error
    of [sqlForPartialUpdate] before anything is sent to the database, which
    is left as it was. *)
Theorem X3_update_without_data_sends_nothing {DB : Type}
    (exec : DB -> string -> list js_value -> list obj * DB)
    (db : DB) (id : js_value) :
  result (run exec (Job.update id []) db)
  = inl (BadRequestError (Text "No data"))
  /\ issued (run exec (Job.update id []) db) = []
  /\ final_db (run exec (Job.update id []) db) = db.
Proof. done. Qed.

(** X4: with at least one field, [Job.update] sends one statement whose
    [SET] columns are what the empty field map gives for the keys of the
    data, in the order of [Object.keys]: the key itself, except for a key
    that names a built-in member every object inherits; it binds the
    values in that order and the id last, throws the not-found error
    exactly when the statement returns no row, and returns the first row
    otherwise. *)
Theorem X4_update_outcome {DB : Type}
    (exec : DB -> string -> list js_value -> list obj * DB)
    (db : DB) (id : js_value) (data : obj) :
  data <> [] ->
  issued (run exec (Job.update id data) db)
  = [(Job.update_sql_text (set_clause (column_of [] <$> Object_keys data))
        ("$" +:+ pretty (length data + 1)),
      Object_values data ++ [id])]
  /\ result (run exec (Job.update id data) db)
     = match (exec db
                (Job.update_sql_text
                   (set_clause (column_of [] <$> Object_keys data))
                   ("$" +:+ pretty (length data + 1)))
                (Object_values data ++ [id])).1 with
       | [] => inl (NotFoundError (Text ("No job: " +:+ ToString id)))
       | job :: _ => inr job
       end
  /\ final_db (run exec (Job.update id data) db)
     = (exec db
          (Job.update_sql_text (set_clause (column_of [] <$> Object_keys data))
             ("$" +:+ pretty (length data + 1)))
          (Object_values data ++ [id])).2
  /\ (Forall (fun k => Object_prototype k = VUndefined) (Object_keys data) ->
      column_of [] <$> Object_keys data = Object_keys data).
Proof.
  intros Hne. unfold Job.update.
  rewrite (sqlForPartialUpdate_nonempty data [] Hne). cbn [setCols values].
  rewrite length_Object_values.
  match goal with
  | |- context [run exec (Query ?s ?ps ?k) db] =>
      destruct (run_query exec s ps k db) as (-> & -> & ->)
  end.
  split; [|split; [|split]]; try apply columns_of_no_map;
    by destruct (exec db _ _) as [[|job rest] db'].
Qed.

Lemma X4_witness :
  [("title", VStr "New"); ("companyHandle", VStr "c2")] <> ([] : obj)
  /\ issued (run demo_exec
               (Job.update (VStr "7")
                  [("title", VStr "New"); ("companyHandle", VStr "c2")]) tt)
     = [(Job.update_sql_text
           (dquote +:+ "title" +:+ dquote +:+ "=$1, "
              +:+ dquote +:+ "companyHandle" +:+ dquote +:+ "=$2") "$3",
         [VStr "New"; VStr "c2"; VStr "7"])]
  /\ result (run demo_exec
               (Job.update (VStr "7")
                  [("title", VStr "New"); ("companyHandle", VStr "c2")]) tt)
     = inl (NotFoundError (Text "No job: 7")).
Proof.
  assert (Hne : [("title", VStr "New"); ("companyHandle", VStr "c2")]
                <> ([] : obj)) by discriminate.
  pose proof (X4_update_outcome demo_exec tt (VStr "7")
                [("title", VStr "New"); ("companyHandle", VStr "c2")] Hne) as H.
  split; [exact Hne|]. split; [exact (proj1 H)|exact (proj1 (proj2 H))].
Defined.

(** X5: [Job.remove] sends the one [DELETE] with the id as its parameter,
    throws the not-found error exactly when no row comes back, and returns
    nothing otherwise. *)
Theorem X5_remove_outcome {DB : Type}
    (exec : DB -> string -> list js_value -> list obj * DB)
    (db : DB) (id : js_value) :
  issued (run exec (Job.remove id) db) = [(Job.remove_sql, [id])]
  /\ result (run exec (Job.remove id) db)
     = match (exec db Job.remove_sql [id]).1 with
       | [] => inl (NotFoundError (Text ("No job: " +:+ ToString id)))
       | _ :: _ => inr tt
       end
  /\ final_db (run exec (Job.remove id) db) = (exec db Job.remove_sql [id]).2.
Proof.
  unfold Job.remove.
  match goal with
  | |- context [run exec (Query ?s ?ps ?k) db] =>
      destruct (run_query exec s ps k db) as (-> & -> & ->)
  end.
  by destruct (exec db _ _) as [[|job rest] db'].
Qed.

(** X6: [Job.create] reads the four fields [title], [salary], [equity],
    [companyHandle] and nothing else, binds them in the order of the
    [INSERT] columns (a missing field as [undefined]) and sends that one
    statement.  It has no error of its own: it fails exactly when the
    database refuses the statement, with the database's error; when the
    statement is answered it returns the first row, or [undefined] when
    there is none. *)
Theorem X6_create_outcome {E DB : Type}
    (engine : DB -> string -> list js_value -> (E + list obj) * DB)
    (db : DB) (data data' : obj) :
  (sent (attempt_run engine (Job.create data) db)
   = [(Job.create_sql,
       [get_prop data "title"; get_prop data "salary";
        get_prop data "equity"; get_prop data "companyHandle"])]
   /\ ended (attempt_run engine (Job.create data) db)
      = match (engine db Job.create_sql
                 [get_prop data "title"; get_prop data "salary";
                  get_prop data "equity"; get_prop data "companyHandle"]).1
        with
        | inl e => inl (Rejected e)
        | inr [] => inr VUndefined
        | inr (job :: _) => inr (VObj job)
        end)
  /\ (get_prop data "title" = get_prop data' "title" ->
      get_prop data "salary" = get_prop data' "salary" ->
      get_prop data "equity" = get_prop data' "equity" ->
      get_prop data "companyHandle" = get_prop data' "companyHandle" ->
      Job.create data = Job.create data').
Proof.
  split.
  - unfold Job.create, attempt_run. cbn.
    by destruct (engine db _ _) as [[e|[|job rest]] db'].
  - intros H1 H2 H3 H4. unfold Job.create. by rewrite H1, H2, H3, H4.
Qed.

Lemma X6_witness :
  Job.create [("title", VStr "t"); ("salary", VNum 1); ("equity", VStr "0");
              ("companyHandle", VStr "c1")]
  = Job.create [("companyHandle", VStr "c1"); ("id", VNum 99);
                ("equity", VStr "0"); ("salary", VNum 1); ("title", VStr "t")].
Proof.
  exact (proj2 (X6_create_outcome strict_engine 0
                  [("title", VStr "t"); ("salary", VNum 1); ("equity", VStr "0");
                   ("companyHandle", VStr "c1")]
                  [("companyHandle", VStr "c1"); ("id", VNum 99);
                   ("equity", VStr "0"); ("salary", VNum 1); ("title", VStr "t")])
           eq_refl eq_refl eq_refl eq_refl).
Defined.

(** A job without title is bound as [undefined] and refused by the engine;
    the refusal is what [Job.create] fails with. *)
Example create_refused :
  ended (attempt_run strict_engine
           (Job.create [("salary", VNum 1); ("companyHandle", VStr "c1")]) 0)
  = inl (Rejected "null value violates not-null constraint").
Proof. reflexivity. Qed.

(** ** [Job.findAll], further *)

(** X7: [Job.findAll] reads [minSalary], [hasEquity] and [title] and
    nothing else: criteria objects that agree on these three send the same
    statement, so any other key, and the order of the keys, is ignored.
    The method sends one statement and has no error of its own: it fails
    exactly when the database refuses the statement, with the database's
    error, and otherwise returns the rows as they are. *)
Theorem X7_findAll_reads_three_keys {E DB : Type}
    (engine : DB -> string -> list js_value -> (E + list obj) * DB)
    (db : DB) (c1 c2 : obj) :
  (get_prop c1 "minSalary" = get_prop c2 "minSalary" ->
   get_prop c1 "hasEquity" = get_prop c2 "hasEquity" ->
   get_prop c1 "title" = get_prop c2 "title" ->
   Job.findAll (Some c1) = Job.findAll (Some c2))
  /\ (forall (k : string) (v : js_value),
        k <> "minSalary" -> k <> "hasEquity" -> k <> "title" ->
        Job.findAll (Some (set_prop c1 k v)) = Job.findAll (Some c1))
  /\ sent (attempt_run engine (Job.findAll (Some c1)) db)
     = [Job.findAll_statement (get_prop c1 "minSalary")
          (get_prop c1 "hasEquity") (get_prop c1 "title")]
  /\ ended (attempt_run engine (Job.findAll (Some c1)) db)
     = match (engine db
                (Job.findAll_statement (get_prop c1 "minSalary")
                   (get_prop c1 "hasEquity") (get_prop c1 "title")).1
                (Job.findAll_statement (get_prop c1 "minSalary")
                   (get_prop c1 "hasEquity") (get_prop c1 "title")).2).1 with
       | inl e => inl (Rejected e)
       | inr rows => inr rows
       end.
Proof.
  split.
  { intros H1 H2 H3. rewrite !findAll_unfold. by rewrite H1, H2, H3. }
  split.
  { intros k v H1 H2 H3. rewrite !findAll_unfold, !get_prop_set.
    destruct (String.eqb_spec k "minSalary"); [congruence|].
    destruct (String.eqb_spec k "hasEquity"); [congruence|].
    destruct (String.eqb_spec k "title"); [congruence|]. done. }
  rewrite findAll_unfold. unfold attempt_run. cbn.
  destruct (Job.findAll_statement _ _ _) as [sql params]. cbn.
  by destruct (engine db sql params) as [[e|rows] db'].
Qed.

Lemma X7_witness :
  Job.findAll (Some [("title", VStr "eng"); ("sort", VStr "salary");
                     ("minSalary", VNum 100)])
  = Job.findAll (Some [("minSalary", VNum 100); ("title", VStr "eng")]).
Proof.
  exact (proj1 (X7_findAll_reads_three_keys strict_engine 0
                  [("title", VStr "eng"); ("sort", VStr "salary");
                   ("minSalary", VNum 100)]
                  [("minSalary", VNum 100); ("title", VStr "eng")])
           eq_refl eq_refl eq_refl).
Defined.

(** ** [routes/jobs.js] *)

(** Rewrite the outcome of a program that starts with a statement into the
    outcome of what follows it. *)
Ltac step_query exec db :=
  match goal with
  | |- context [run exec (Query ?s ?ps ?k) db] =>
      let H1 := fresh in
      let H2 := fresh in
      let H3 := fresh in
      destruct (run_query exec s ps k db) as (H1 & H2 & H3);
      rewrite ?H1, ?H2, ?H3; clear H1 H2 H3
  end.

Ltac handler_outcome exec db :=
  match goal with
  | |- context [run exec (respond_with ?p ?ok) db] =>
      let H1 := fresh in
      let H2 := fresh in
      let H3 := fresh in
      destruct (run_respond_with exec p ok db) as (H1 & H2 & H3);
      rewrite ?H1, ?H2, ?H3; clear H1 H2 H3
  end.

Lemma is_string_true_spec (v : js_value) :
  is_string_true v = true <-> v = VStr "true".
Proof.
  destruct v; cbn; try (split; congruence).
  destruct (String.eqb_spec s "true"); split; congruence.
Qed.

Lemma equity_clause_iff (minSalary hasEquity title : js_value) :
  "equity > 0" ∈ (Job.findAll_filters minSalary hasEquity title).1
  <-> is_true hasEquity = true.
Proof.
  rewrite findAll_filters_closed. cbn [fst]. rewrite !elem_of_app.
  destruct (is_defined minSalary), (is_true hasEquity), (is_defined title);
    rewrite ?elem_of_cons, ?elem_of_nil; split; intros H;
    try reflexivity; try (by right; left; left);
    repeat (destruct H as [H|H]); discriminate || done.
Qed.

Lemma jobs_coerce_get (StringToNumber : string -> js_value) (query : obj) :
  get_prop (jobs_coerce StringToNumber query) "hasEquity"
  = VBool (is_string_true (get_prop query "hasEquity"))
  /\ get_prop (jobs_coerce StringToNumber query) "minSalary"
     = (if is_defined (get_prop query "minSalary")
        then ToNumber StringToNumber (get_prop query "minSalary")
        else VUndefined)
  /\ (forall k : string,
        k <> "minSalary" -> k <> "hasEquity" ->
        get_prop (jobs_coerce StringToNumber query) k = get_prop query k).
Proof.
  unfold jobs_coerce. split.
  { rewrite get_prop_set. cbn.
    destruct (is_defined (get_prop query "minSalary"));
      by rewrite ?get_prop_set. }
  split.
  { rewrite get_prop_set. cbn.
    destruct (is_defined (get_prop query "minSalary")) eqn:Hms.
    - by rewrite get_prop_set.
    - by destruct (get_prop query "minSalary"). }
  intros k Hk1 Hk2. rewrite get_prop_set.
  destruct (String.eqb_spec "hasEquity" k); [congruence|].
  destruct (is_defined (get_prop query "minSalary")); [|done].
  rewrite get_prop_set. by destruct (String.eqb_spec "minSalary" k).
Qed.

Lemma keys_set_present (o : obj) (k : string) (v : js_value) :
  k ∈ o.*1 -> (set_prop o k v).*1 = o.*1.
Proof.
  induction o as [|[k0 v0] o IH]; cbn.
  - by intros ?%elem_of_nil.
  - destruct (String.eqb_spec k0 k) as [->|Hk]; [done|].
    rewrite elem_of_cons. intros [?|Hin]; [congruence|].
    cbn. by rewrite IH.
Qed.

Lemma set_prop_absent (o : obj) (k : string) (v : js_value) :
  k ∉ o.*1 -> set_prop o k v = o ++ [(k, v)].
Proof.
  induction o as [|[k0 v0] o IH]; cbn; [done|].
  rewrite not_elem_of_cons. intros [Hne Hout].
  destruct (String.eqb_spec k0 k); [congruence|]. by rewrite IH.
Qed.

Lemma defined_is_key (o : obj) (k : string) :
  Object_prototype k = VUndefined ->
  is_defined (get_prop o k) = true -> k ∈ o.*1.
Proof.
  intros Hproto. induction o as [|[k0 v0] o IH]; cbn.
  - by rewrite Hproto.
  - destruct (String.eqb_spec k0 k) as [->|Hk]; intros H.
    + apply elem_of_cons. by left.
    + apply elem_of_cons. right. by apply IH.
Qed.

Lemma keys_set_defined (o : obj) (k : string) (v : js_value) :
  Object_prototype k = VUndefined ->
  (if is_defined (get_prop o k) then set_prop o k v else o).*1 = o.*1.
Proof.
  intros Hproto. destruct (is_defined (get_prop o k)) eqn:Hd; [|done].
  apply keys_set_present. by apply defined_is_key.
Qed.

(** X8: the list handler turns [hasEquity] into a boolean that is [true]
    only for the string [true], and the property is always there when the
    query is validated (added last when the query had none); it replaces
    [minSalary] by its number when it is there, and leaves every other key
    of the query alone. *)
Theorem X8_jobs_coerce
    (StringToNumber : string -> js_value) (query : obj) :
  get_prop (jobs_coerce StringToNumber query) "hasEquity"
  = VBool (is_string_true (get_prop query "hasEquity"))
  /\ (is_string_true (get_prop query "hasEquity") = true
      <-> get_prop query "hasEquity" = VStr "true")
  /\ Object_keys (jobs_coerce StringToNumber query)
     = (if bool_decide ("hasEquity" ∈ Object_keys query)
        then Object_keys query
        else Object_keys query ++ ["hasEquity"])
  /\ get_prop (jobs_coerce StringToNumber query) "minSalary"
     = (if is_defined (get_prop query "minSalary")
        then ToNumber StringToNumber (get_prop query "minSalary")
        else VUndefined)
  /\ (forall k : string,
        k <> "minSalary" -> k <> "hasEquity" ->
        get_prop (jobs_coerce StringToNumber query) k = get_prop query k).
Proof.
  destruct (jobs_coerce_get StringToNumber query) as (Hhe & Hms & Hother).
  split; [exact Hhe|]. split; [apply is_string_true_spec|].
  split; [|by split].
  unfold jobs_coerce. cbn zeta.
  pose proof (keys_set_defined query "minSalary"
                (ToNumber StringToNumber (get_prop query "minSalary")) eq_refl)
    as Hkeys.
  set (q1 := if is_defined (get_prop query "minSalary")
             then set_prop query "minSalary"
                    (ToNumber StringToNumber (get_prop query "minSalary"))
             else query) in *.
  case_bool_decide as Hin; rewrite elem_of_Object_keys, <- Hkeys in Hin.
  - rewrite <- (Object_keys_same q1 query Hkeys).
    apply Object_keys_same. by apply keys_set_present.
  - rewrite set_prop_absent by done.
    rewrite <- (Object_keys_same q1 query Hkeys).
    unfold Object_keys, Object_entries.
    by rewrite enumerate_snoc_named, fmap_app.
Qed.

(** X9: when the search schema rejects the coerced query, the list handler
    hands a bad-request error with the validator's messages to [next] and
    sends nothing to the database. *)
Theorem X9_jobs_list_rejected {DB : Type}
    (exec : DB -> string -> list js_value -> list obj * DB) (db : DB)
    (StringToNumber : string -> js_value)
    (jsonschema_validate : obj -> schema -> list string) (query : obj) :
  jsonschema_validate (jobs_coerce StringToNumber query) jobSearchSchema <> [] ->
  result (run exec (jobs_list StringToNumber jsonschema_validate query) db)
  = inr (PassNext
           (BadRequestError
              (Stacks (jsonschema_validate
                         (jobs_coerce StringToNumber query) jobSearchSchema))))
  /\ issued (run exec (jobs_list StringToNumber jsonschema_validate query) db)
     = []
  /\ final_db (run exec (jobs_list StringToNumber jsonschema_validate query) db)
     = db.
Proof.
  intros Hrej. unfold jobs_list. handler_outcome exec db.
  destruct (jsonschema_validate _ _) as [|e errs]; [congruence|done].
Qed.

Lemma X9_witness :
  demo_validate (jobs_coerce decimal_literal [("salary", VStr "1")])
    jobSearchSchema <> []
  /\ result (run demo_exec
               (jobs_list decimal_literal demo_validate [("salary", VStr "1")]) tt)
     = inr (PassNext
              (BadRequestError
                 (Stacks ["instance is not allowed to have the additional property salary"])))
  /\ issued (run demo_exec
               (jobs_list decimal_literal demo_validate [("salary", VStr "1")]) tt)
     = [].
Proof.
  assert (Hrej : demo_validate
                   (jobs_coerce decimal_literal [("salary", VStr "1")])
                   jobSearchSchema <> []) by discriminate.
  pose proof (X9_jobs_list_rejected demo_exec tt decimal_literal demo_validate
                [("salary", VStr "1")] Hrej) as H.
  split; [exact Hrej|]. split; [exact (proj1 H)|exact (proj1 (proj2 H))].
Defined.

(** X10: when the search schema accepts, the list handler sends the one
    statement of [Job.findAll] for the coerced query, and when that is
    answered it answers with the rows under [jobs]; the text of the
    statement carries [equity > 0] exactly when the query string had
    [hasEquity=true], and [minSalary] is bound as a number. *)
Theorem X10_jobs_list_accepted {DB : Type}
    (exec : DB -> string -> list js_value -> list obj * DB) (db : DB)
    (StringToNumber : string -> js_value)
    (jsonschema_validate : obj -> schema -> list string) (query : obj) :
  jsonschema_validate (jobs_coerce StringToNumber query) jobSearchSchema = [] ->
  exists (minSalary : js_value) (hasEquity : bool)
         (clauses : list string) (params : list js_value),
    minSalary = (if is_defined (get_prop query "minSalary")
                 then ToNumber StringToNumber (get_prop query "minSalary")
                 else VUndefined)
    /\ (hasEquity = true <-> get_prop query "hasEquity" = VStr "true")
    /\ clauses
       = (if is_defined minSalary then ["salary >= $1"] else [])
           ++ (if hasEquity then ["equity > 0"] else [])
           ++ (if is_defined (get_prop query "title")
               then ["title ILIKE $"
                       +:+ (if is_defined minSalary then "2" else "1")]
               else [])
    /\ params
       = (if is_defined minSalary then [minSalary] else [])
           ++ (if is_defined (get_prop query "title")
               then [VStr ("%" +:+ ToString (get_prop query "title") +:+ "%")]
               else [])
    /\ issued (run exec (jobs_list StringToNumber jsonschema_validate query) db)
       = [((if Nat.ltb 0 (length clauses)
            then Job.findAll_base +:+ " WHERE "
                 +:+ String.concat " AND " clauses
            else Job.findAll_base) +:+ " ORDER BY title",
           params)]
    /\ result (run exec (jobs_list StringToNumber jsonschema_validate query) db)
       = inr (Reply 200
                (Members "jobs"
                   (exec db
                      ((if Nat.ltb 0 (length clauses)
                        then Job.findAll_base +:+ " WHERE "
                             +:+ String.concat " AND " clauses
                        else Job.findAll_base) +:+ " ORDER BY title")
                      params).1))
    /\ ("equity > 0" ∈ clauses <-> get_prop query "hasEquity" = VStr "true").
Proof.
  intros Hok.
  destruct (jobs_coerce_get StringToNumber query) as (Hhe & Hms & Hother).
  eexists _, (is_string_true (get_prop query "hasEquity")), _, _.
  split; [reflexivity|]. split; [apply is_string_true_spec|].
  split; [reflexivity|]. split; [reflexivity|].
  unfold jobs_list. handler_outcome exec db. rewrite Hok. cbn [length Nat.eqb negb].
  rewrite findAll_unfold, Hhe, Hms, (Hother "title") by discriminate.
  step_query exec db. cbn [run run_from result issued].
  rewrite findAll_statement_unfold, findAll_filters_closed. cbn [fst snd is_true].
  rewrite <- is_string_true_spec.
  pose proof (equity_clause_iff
                (if is_defined (get_prop query "minSalary")
                 then ToNumber StringToNumber (get_prop query "minSalary")
                 else VUndefined)
                (VBool (is_string_true (get_prop query "hasEquity")))
                (get_prop query "title")) as Hiff.
  rewrite findAll_filters_closed in Hiff. cbn [fst is_true] in Hiff.
  by destruct (is_string_true (get_prop query "hasEquity")).
Qed.

Lemma X10_witness :
  demo_validate
    (jobs_coerce decimal_literal
       [("hasEquity", VStr "true"); ("minSalary", VStr "100")])
    jobSearchSchema = []
  /\ issued (run one_row_exec
               (jobs_list decimal_literal demo_validate
                  [("hasEquity", VStr "true"); ("minSalary", VStr "100")]) 0)
     = [(Job.findAll_base
           +:+ " WHERE salary >= $1 AND equity > 0 ORDER BY title",
         [VNum 100])]
  /\ result (run one_row_exec
               (jobs_list decimal_literal demo_validate
                  [("hasEquity", VStr "true"); ("minSalary", VStr "100")]) 0)
     = inr (Reply 200 (Members "jobs" [demo_job])).
Proof.
  split; [reflexivity|].
  destruct (X10_jobs_list_accepted one_row_exec 0 decimal_literal demo_validate
              [("hasEquity", VStr "true"); ("minSalary", VStr "100")] eq_refl)
    as (ms & he & clauses & params & -> & Hhe & -> & -> & Hissued & Hresult & _).
  assert (he = true) as -> by (by apply Hhe).
  split; [exact Hissued|exact Hresult].
Defined.

(** X11: [PATCH /:id] never reaches the database when the update schema
    rejects the body (the validator's messages go to [next] in a
    bad-request error), nor when an accepted body has no field (the
    [No data] error of [sqlForPartialUpdate] goes to [next]). *)
Theorem X11_jobs_patch_without_statement {DB : Type}
    (exec : DB -> string -> list js_value -> list obj * DB) (db : DB)
    (jsonschema_validate : obj -> schema -> list string)
    (id : js_value) (req_body : obj) :
  jsonschema_validate req_body jobUpdateSchema <> [] \/ req_body = [] ->
  result (run exec (jobs_patch jsonschema_validate id req_body) db)
  = inr (PassNext
           (BadRequestError
              (match jsonschema_validate req_body jobUpdateSchema with
               | [] => Text "No data"
               | errs => Stacks errs
               end)))
  /\ issued (run exec (jobs_patch jsonschema_validate id req_body) db) = []
  /\ final_db (run exec (jobs_patch jsonschema_validate id req_body) db) = db.
Proof.
  intros Hcase. unfold jobs_patch. handler_outcome exec db.
  destruct (jsonschema_validate req_body jobUpdateSchema) as [|e errs] eqn:Hv.
  - destruct Hcase as [?| ->]; [congruence|done].
  - done.
Qed.

Lemma X11_witness :
  (demo_validate [] jobUpdateSchema <> [] \/ ([] : obj) = [])
  /\ result (run one_row_exec (jobs_patch demo_validate (VStr "1") []) 0)
     = inr (PassNext (BadRequestError (Text "No data")))
  /\ issued (run one_row_exec (jobs_patch demo_validate (VStr "1") []) 0) = []
  /\ final_db (run one_row_exec (jobs_patch demo_validate (VStr "1") []) 0) = 0.
Proof.
  assert (Hcase : demo_validate [] jobUpdateSchema <> [] \/ ([] : obj) = [])
    by (right; reflexivity).
  split; [exact Hcase|].
  exact (X11_jobs_patch_without_statement one_row_exec 0
           demo_validate (VStr "1") [] Hcase).
Defined.

(** X12: with an accepted body of at least one field, [PATCH /:id] sends
    the one [UPDATE] of [Job.update], whose [SET] columns are what the empty
    field map gives for the keys of the body (the key itself, except for a
    key that names a built-in member every object inherits) and whose last
    parameter is the id of the path; when a row comes back it answers with
    it under [job], and when none does it hands the not-found error to
    [next]. *)
Theorem X12_jobs_patch_accepted {DB : Type}
    (exec : DB -> string -> list js_value -> list obj * DB) (db : DB)
    (jsonschema_validate : obj -> schema -> list string)
    (id : js_value) (req_body : obj) :
  jsonschema_validate req_body jobUpdateSchema = [] ->
  req_body <> [] ->
  issued (run exec (jobs_patch jsonschema_validate id req_body) db)
  = [(Job.update_sql_text (set_clause (column_of [] <$> Object_keys req_body))
        ("$" +:+ pretty (length req_body + 1)),
      Object_values req_body ++ [id])]
  /\ result (run exec (jobs_patch jsonschema_validate id req_body) db)
     = inr match (exec db
                    (Job.update_sql_text
                       (set_clause (column_of [] <$> Object_keys req_body))
                       ("$" +:+ pretty (length req_body + 1)))
                    (Object_values req_body ++ [id])).1 with
           | [] => PassNext (NotFoundError (Text ("No job: " +:+ ToString id)))
           | job :: _ => Reply 200 (Member "job" (VObj job))
           end
  /\ (Forall (fun k => Object_prototype k = VUndefined) (Object_keys req_body) ->
      column_of [] <$> Object_keys req_body = Object_keys req_body).
Proof.
  intros Hok Hne. unfold jobs_patch. handler_outcome exec db.
  rewrite Hok. cbn [length Nat.eqb negb]. unfold Job.update.
  rewrite (sqlForPartialUpdate_nonempty req_body [] Hne). cbn [setCols values].
  rewrite length_Object_values.
  step_query exec db.
  split; [|split]; try apply columns_of_no_map;
    by destruct (exec db _ _) as [[|job rest] db'].
Qed.

Lemma X12_witness :
  demo_validate [("salary", VNum 500)] jobUpdateSchema = []
  /\ [("salary", VNum 500)] <> ([] : obj)
  /\ issued (run one_row_exec
               (jobs_patch demo_validate (VStr "1") [("salary", VNum 500)]) 0)
     = [(Job.update_sql_text (dquote +:+ "salary" +:+ dquote +:+ "=$1") "$2",
         [VNum 500; VStr "1"])]
  /\ result (run one_row_exec
               (jobs_patch demo_validate (VStr "1") [("salary", VNum 500)]) 0)
     = inr (Reply 200 (Member "job" (VObj demo_job))).
Proof.
  split; [reflexivity|]. split; [discriminate|].
  pose proof (X12_jobs_patch_accepted one_row_exec 0 demo_validate (VStr "1")
                [("salary", VNum 500)] eq_refl ltac:(discriminate)) as H.
  split; [exact (proj1 H)|exact (proj1 (proj2 H))].
Defined.

(** X13: [GET /:id] answers with the job and its nested company under
    [job] when the job exists, after two lookups; when it does not, it
    hands the not-found error to [next] after the first lookup alone. *)
Theorem X13_jobs_get {DB : Type}
    (exec : DB -> string -> list js_value -> list obj * DB) (db : DB)
    (id : js_value) :
  match (exec db Job.get_job_sql [id]).1 with
  | [] =>
      result (run exec (jobs_get id) db)
      = inr (PassNext (NotFoundError (Text ("No job: " +:+ ToString id))))
      /\ issued (run exec (jobs_get id) db) = [(Job.get_job_sql, [id])]
  | job :: _ =>
      result (run exec (jobs_get id) db)
      = inr (Reply 200
               (Member "job"
                  (VObj
                     (set_prop (delete_prop job "companyHandle") "company"
                        match (exec (exec db Job.get_job_sql [id]).2
                                 Job.get_company_sql
                                 [get_prop job "companyHandle"]).1 with
                        | [] => VUndefined
                        | c :: _ => VObj c
                        end))))
      /\ issued (run exec (jobs_get id) db)
         = [(Job.get_job_sql, [id]);
            (Job.get_company_sql, [get_prop job "companyHandle"])]
  end.
Proof.
  unfold jobs_get. handler_outcome exec db. unfold Job.get.
  step_query exec db.
  destruct (exec db Job.get_job_sql [id]) as [[|job rest] db1]; cbn [fst snd].
  - done.
  - step_query exec db1.
    by destruct (exec db1 Job.get_company_sql _) as [[|c cs] db2].
Qed.

(** X14: [DELETE /:id] binds the id of the path as it is, and answers
    [deleted] with that id turned into a number only when a row was
    deleted; otherwise the not-found error goes to [next]. *)
Theorem X14_jobs_delete {DB : Type}
    (exec : DB -> string -> list js_value -> list obj * DB) (db : DB)
    (StringToNumber : string -> js_value) (id : js_value) :
  issued (run exec (jobs_delete StringToNumber id) db) = [(Job.remove_sql, [id])]
  /\ result (run exec (jobs_delete StringToNumber id) db)
     = inr match (exec db Job.remove_sql [id]).1 with
           | [] => PassNext (NotFoundError (Text ("No job: " +:+ ToString id)))
           | _ :: _ => Reply 200 (Member "deleted" (ToNumber StringToNumber id))
           end.
Proof.
  unfold jobs_delete. handler_outcome exec db. unfold Job.remove.
  step_query exec db.
  by destruct (exec db Job.remove_sql [id]) as [[|job rest] db1].
Qed.

(** X15: [POST /] sends nothing to the database when the schema rejects
    the body; when it accepts, it sends the one [INSERT] and answers 201
    with the created row under [job]. *)
Theorem X15_jobs_post {DB : Type}
    (exec : DB -> string -> list js_value -> list obj * DB) (db : DB)
    (jsonschema_validate : obj -> schema -> list string) (req_body : obj) :
  match jsonschema_validate req_body jobNewSchema with
  | [] =>
      issued (run exec (jobs_post jsonschema_validate req_body) db)
      = [(Job.create_sql,
          [get_prop req_body "title"; get_prop req_body "salary";
           get_prop req_body "equity"; get_prop req_body "companyHandle"])]
      /\ result (run exec (jobs_post jsonschema_validate req_body) db)
         = inr (Reply 201
                  (Member "job"
                     match (exec db Job.create_sql
                              [get_prop req_body "title";
                               get_prop req_body "salary";
                               get_prop req_body "equity";
                               get_prop req_body "companyHandle"]).1 with
                     | [] => VUndefined
                     | job :: _ => VObj job
                     end))
  | errs =>
      issued (run exec (jobs_post jsonschema_validate req_body) db) = []
      /\ result (run exec (jobs_post jsonschema_validate req_body) db)
         = inr (PassNext (BadRequestError (Stacks errs)))
      /\ final_db (run exec (jobs_post jsonschema_validate req_body) db) = db
  end.
Proof.
  unfold jobs_post. handler_outcome exec db.
  destruct (jsonschema_validate req_body jobNewSchema) as [|e errs].
  - cbn [length Nat.eqb negb]. unfold Job.create. step_query exec db.
    by destruct (exec db Job.create_sql _) as [[|job rest] db1].
  - done.
Qed.

(** ** [routes/companies.js], further *)

(** X16: the coercion at the head of the companies list handler keeps the
    keys of the query and their order, replaces each bound that is there by
    its number, adds no bound that is not there, and leaves every other key
    alone. *)
Theorem X16_coerce_bounds_frame
    (StringToNumber : string -> js_value) (query : obj) :
  Object_keys (coerce_bounds StringToNumber query) = Object_keys query
  /\ get_prop (coerce_bounds StringToNumber query) "minEmployees"
     = (if is_defined (get_prop query "minEmployees")
        then ToNumber StringToNumber (get_prop query "minEmployees")
        else get_prop query "minEmployees")
  /\ get_prop (coerce_bounds StringToNumber query) "maxEmployees"
     = (if is_defined (get_prop query "maxEmployees")
        then ToNumber StringToNumber (get_prop query "maxEmployees")
        else get_prop query "maxEmployees")
  /\ (forall k : string,
        k <> "minEmployees" -> k <> "maxEmployees" ->
        get_prop (coerce_bounds StringToNumber query) k = get_prop query k).
Proof.
  unfold coerce_bounds. cbn zeta.
  pose proof (keys_set_defined query "minEmployees"
                (ToNumber StringToNumber (get_prop query "minEmployees"))
                eq_refl) as Hkeys1.
  set (q1 := if is_defined (get_prop query "minEmployees")
             then set_prop query "minEmployees"
                    (ToNumber StringToNumber (get_prop query "minEmployees"))
             else query) in *.
  pose proof (keys_set_defined q1 "maxEmployees"
                (ToNumber StringToNumber (get_prop q1 "maxEmployees"))
                eq_refl) as Hkeys2.
  assert (Hmin : get_prop q1 "minEmployees"
                 = (if is_defined (get_prop query "minEmployees")
                    then ToNumber StringToNumber (get_prop query "minEmployees")
                    else get_prop query "minEmployees")).
  { subst q1. destruct (is_defined (get_prop query "minEmployees")); [|done].
    by rewrite get_prop_set. }
  assert (Hframe1 : forall k, k <> "minEmployees" ->
                      get_prop q1 k = get_prop query k).
  { intros k Hk. subst q1.
    destruct (is_defined (get_prop query "minEmployees")); [|done].
    rewrite get_prop_set. by destruct (String.eqb_spec "minEmployees" k). }
  set (q2 := if is_defined (get_prop q1 "maxEmployees")
             then set_prop q1 "maxEmployees"
                    (ToNumber StringToNumber (get_prop q1 "maxEmployees"))
             else q1) in *.
  split.
  { apply Object_keys_same. by rewrite Hkeys2, Hkeys1. }
  split.
  { rewrite <- Hmin. subst q2.
    destruct (is_defined (get_prop q1 "maxEmployees")); [|done].
    by rewrite get_prop_set. }
  split.
  { subst q2. rewrite (Hframe1 "maxEmployees") by discriminate.
    destruct (is_defined (get_prop query "maxEmployees"));
      [by rewrite get_prop_set|by apply Hframe1]. }
  intros k Hk1 Hk2. rewrite <- (Hframe1 k Hk1). subst q2.
  destruct (is_defined (get_prop q1 "maxEmployees")); [|done].
  rewrite get_prop_set. by destruct (String.eqb_spec "maxEmployees" k).
Qed.

(** X17: the companies list handler compares no bounds.  It coerces
    the two bounds with unary plus, hands a bad-request error carrying the
    schema validator's messages to [next] exactly when the validator reports
    errors, and otherwise calls [Company.findAll] with the coerced query; a
    schema that judges each property on its own and accepts each bound
    lets the pair through whatever their order. *)
Theorem X17_companies_list_forwards_unless_schema_rejects
    (StringToNumber : string -> js_value) (validate : obj -> list string) :
  (forall query : obj,
     companies_list StringToNumber validate query
     = match validate (coerce_bounds StringToNumber query) with
       | [] => CallFindAll (coerce_bounds StringToNumber query) companies_respond
       | errs => Respond (Next (BadRequestError (Stacks errs)))
       end)
  /\ (property_wise validate ->
      forall (smin smax : string) (lo hi : Z),
        StringToNumber smin = VNum lo ->
        StringToNumber smax = VNum hi ->
        validate [("minEmployees", VNum lo)] = [] ->
        validate [("maxEmployees", VNum hi)] = [] ->
        companies_list StringToNumber validate
          [("minEmployees", VStr smin); ("maxEmployees", VStr smax)]
        = CallFindAll [("minEmployees", VNum lo); ("maxEmployees", VNum hi)]
            companies_respond).
Proof.
  split; [apply companies_list_unfold|].
  intros Hpw smin smax lo hi Hlo Hhi Hmin Hmax.
  rewrite companies_list_unfold.
  unfold coerce_bounds. cbn. rewrite Hlo, Hhi.
  by rewrite (property_wise_pair _ _ _ _ _ Hpw), Hmin, Hmax.
Qed.

Lemma X17_witness :
  property_wise companySearch_validate
  /\ decimal_literal "10" = VNum 10
  /\ decimal_literal "3" = VNum 3
  /\ companySearch_validate [("minEmployees", VNum 10)] = []
  /\ companySearch_validate [("maxEmployees", VNum 3)] = []
  /\ companies_list decimal_literal companySearch_validate
       [("minEmployees", VStr "10"); ("maxEmployees", VStr "3")]
     = CallFindAll [("minEmployees", VNum 10); ("maxEmployees", VNum 3)]
         companies_respond.
Proof.
  assert (Hpw : property_wise companySearch_validate)
    by (exists companySearch_check; reflexivity).
  split; [exact Hpw|]. repeat (split; [reflexivity|]).
  exact (proj2 (X17_companies_list_forwards_unless_schema_rejects
                  decimal_literal companySearch_validate)
           Hpw "10" "3" 10%Z 3%Z eq_refl eq_refl eq_refl eq_refl).
Defined.

